(** * slideshowmaker: image ordering, Ken Burns filters and crossfade timeline

    A shallow embedding of [slideshowmaker.py].  The program orders a set of
    images, renders one Ken Burns clip per image through ffmpeg and chains the
    clips with xfade transitions.  Everything outside the program (the
    filesystem, PIL, [datetime.strptime], ffmpeg) is an oracle of the
    environment record [Env]; Python's floats are an interface [PyFloat] with
    a binary64 instance. *)

From Stdlib Require Import ZArith List String Ascii Bool Lia.
From Stdlib Require Import Sorting.Sorted Sorting.Permutation.
From Stdlib Require Import Numbers.DecimalString.
From Stdlib Require Numbers.DecimalZ.
From Stdlib Require Import Floats.
Import ListNotations.

Local Open Scope string_scope.
Local Open Scope list_scope.
Local Open Scope Z_scope.

(** ** Results of fallible Python code *)

(** The exceptions the modelled code can raise. *)
Inductive exn : Type :=
| IndexError
| OverflowError
| ValueError
| FileNotFoundError (path : string)
| OSError (path : string)
| CalledProcessError (cmd : list string).

Inductive result (A : Type) : Type :=
| Ok (a : A)
| Raise (e : exn).

Arguments Ok {A} a.
Arguments Raise {A} e.

Definition rbind {A B : Type} (r : result A) (k : A -> result B) : result B :=
  match r with
  | Ok a => k a
  | Raise e => Raise e
  end.

(** ** Python built-ins used by the program *)

Module Py.

(** [str(i)] for an int. *)
Definition str_int (z : Z) : string := NilZero.string_of_int (Z.to_int z).

Fixpoint zeros (n : nat) : string :=
  match n with
  | O => ""
  | S n' => String "0" (zeros n')
  end.

(** [s.zfill(width)] on a string of digits. *)
Definition zfill (width : nat) (s : string) : string :=
  zeros (width - String.length s) ++ s.

(** The format spec [03d]: the sign first, then zeros up to three columns. *)
Definition fmt_03d (z : Z) : string :=
  if z <? 0 then "-" ++ zfill 2 (str_int (- z)) else zfill 3 (str_int z).

(** [str.isspace] on the code points below 256. *)
Definition isspace (c : ascii) : bool :=
  let n := N_of_ascii c in
  ((9 <=? n) && (n <=? 13) || (28 <=? n) && (n <=? 32)
   || (n =? 133) || (n =? 160))%N.

Fixpoint lstrip (s : string) : string :=
  match s with
  | "" => ""
  | String c t => if isspace c then lstrip t else s
  end.

Fixpoint rstrip (s : string) : string :=
  match s with
  | "" => ""
  | String c t =>
      match rstrip t with
      | "" => if isspace c then "" else String c ""
      | r => String c r
      end
  end.

(** [s.strip()]. *)
Definition strip (s : string) : string := rstrip (lstrip s).

(** Truth value of a string: non-empty. *)
Definition truthy (s : string) : bool :=
  match s with
  | "" => false
  | _ => true
  end.

Definition startswith_sep (s : string) : bool :=
  match s with
  | String "/" _ => true
  | _ => false
  end.

Fixpoint endswith_sep (s : string) : bool :=
  match s with
  | "" => false
  | String c "" => Ascii.eqb c "/"
  | String _ t => endswith_sep t
  end.

(** [os.path.join(a, b)] of posixpath. *)
Definition path_join (a b : string) : string :=
  if startswith_sep b then b
  else if negb (truthy a) || endswith_sep a then a ++ b
  else a ++ "/" ++ b.

(** [l[i]], with Python's negative indices; [None] is IndexError. *)
Definition index {A : Type} (l : list A) (i : Z) : option A :=
  let n := Z.of_nat (List.length l) in
  if (0 <=? i) && (i <? n) then nth_error l (Z.to_nat i)
  else if (- n <=? i) && (i <? 0) then nth_error l (Z.to_nat (n + i))
  else None.

End Py.

(** ** Python floats *)

(** The float operations the program uses.  [of_int] is the implicit
    conversion of an int operand and [to_int] is [int(x)]; both can raise.
    [str_num] is [str(x)], which f-strings use as well. *)
Class PyFloat (num : Type) : Type := {
  one : num;
  nadd : num -> num -> num;
  nsub : num -> num -> num;
  nmul : num -> num -> num;
  of_int : Z -> result num;
  to_int : num -> result Z;
  str_num : num -> string
}.

Module Binary64.

Definition prec : Z := 53.
Definition emax : Z := 1024.

Definition float_of_int (z : Z) : result float :=
  match binary_normalize prec emax z 0 false with
  | S754_infinity _ => Raise OverflowError
  | f => Ok (SF2Prim f)
  end.

Definition int_of_float (x : float) : result Z :=
  match Prim2SF x with
  | S754_zero _ => Ok 0
  | S754_infinity _ => Raise OverflowError
  | S754_nan => Raise ValueError
  | S754_finite s m e =>
      let a := if 0 <=? e then Z.pos m * 2 ^ e else Z.pos m / 2 ^ (- e) in
      Ok (if s then - a else a)
  end.

Fixpoint strip_zeros (digits : list ascii) : list ascii :=
  match digits with
  | [] => []
  | c :: t =>
      match strip_zeros t with
      | [] => if Ascii.eqb c "0" then [] else [c]
      | r => c :: r
      end
  end.

(** The fractional digits of [f / 2^k], [0 <= f < 2^k]: [f * 5^k] written
    on [k] columns, trailing zeros removed, at least one digit kept. *)
Definition frac_digits (f : Z) (k : Z) : string :=
  let d := Py.zfill (Z.to_nat k) (Py.str_int (f * 5 ^ k)) in
  match strip_zeros (list_ascii_of_string d) with
  | [] => "0"
  | r => string_of_list_ascii r
  end.

(** The exact decimal expansion of a double, in fixed notation.  It is what
    [repr] prints for the doubles whose expansion has at most 15 significant
    digits and whose magnitude is in [1e-4, 1e16): there the exact expansion
    is the shortest string that reads back as the same double.  On the other
    doubles it is not Python's [repr], which prints the shortest string that
    reads back (1.1 for the double nearest to 1.1, whose exact expansion has
    52 digits) and switches to exponent notation outside that range; the
    concrete inputs of this file stay within the doubles where the two
    agree, and no statement over an arbitrary [PyFloat] depends on it. *)
Definition repr (x : float) : string :=
  match Prim2SF x with
  | S754_zero s => if s then "-0.0" else "0.0"
  | S754_infinity s => if s then "-inf" else "inf"
  | S754_nan => "nan"
  | S754_finite s m e =>
      let sign := if s then "-" else "" in
      if 0 <=? e then sign ++ Py.str_int (Z.pos m * 2 ^ e) ++ ".0"
      else
        let den := 2 ^ (- e) in
        sign ++ Py.str_int (Z.pos m / den) ++ "."
             ++ frac_digits (Z.pos m mod den) (- e)
  end.

#[global] Instance binary64 : PyFloat float := {
  one := 1%float;
  nadd := PrimFloat.add;
  nsub := PrimFloat.sub;
  nmul := PrimFloat.mul;
  of_int := float_of_int;
  to_int := int_of_float;
  str_num := repr
}.

End Binary64.

(** ** Transition timeline planner *)

Section XFade.

Context {num : Type} `{PyFloat num}.

(** The f-string of one xfade line. *)
Definition xfade_line (current_label : string) (i : Z) (transition : string)
    (crossfade_duration offset : num) (out_label : string) : string :=
  current_label ++ "[" ++ Py.str_int i ++ ":v] xfade="
    ++ "transition=" ++ transition
    ++ ":duration=" ++ str_num crossfade_duration
    ++ ":offset=" ++ str_num offset
    ++ out_label.

Definition out_label (i : Z) : string := "[v" ++ Py.str_int i ++ "]".

(** The [for i in range(1, segment_count)] loop, [n] iterations left, on the
    loop state [(lines, current_label, total_time)]. *)
Fixpoint xfade_loop (n : nat) (i : Z) (segment_lengths : list num)
    (crossfade_duration : num) (transition : string)
    (lines : list string) (current_label : string) (total_time : num)
    : result (list string * string) :=
  match n with
  | O => Ok (lines, current_label)
  | S n' =>
      let offset := nsub total_time crossfade_duration in
      let line :=
        xfade_line current_label i transition crossfade_duration offset
                   (out_label i) in
      match Py.index segment_lengths i with
      | None => Raise IndexError
      | Some d =>
          xfade_loop n' (i + 1) segment_lengths crossfade_duration transition
                     (lines ++ [line]) (out_label i)
                     (nadd total_time (nsub d crossfade_duration))
      end
  end.

(** The body of [build_xfade_filter] below its guard: the lines and the
    final label. *)
Definition xfade_lines (segment_count : Z) (segment_lengths : list num)
    (crossfade_duration : num) (transition : string)
    : result (list string * string) :=
  match Py.index segment_lengths 0 with
  | None => Raise IndexError
  | Some d0 =>
      xfade_loop (Z.to_nat (segment_count - 1)) 1 segment_lengths
                 crossfade_duration transition [] "[0:v]" d0
  end.

Definition build_xfade_filter (segment_count : Z) (segment_lengths : list num)
    (crossfade_duration : num) (transition : string)
    : result (string * string) :=
  if segment_count <=? 1 then Ok ("", "[0:v]")
  else
    rbind (xfade_lines segment_count segment_lengths crossfade_duration
                       transition)
          (fun '(lines, final_label) =>
             Ok (String.concat "; " lines, final_label)).

(** The timeline as the specification words it: the running total starts at
    the first duration and each step adds the next duration minus the
    overlap. [running_total d0 rest c k] is the total after [k] steps. *)
Definition running_total (d0 : num) (rest : list num) (c : num) (k : nat)
    : num :=
  fold_left (fun t d => nadd t (nsub d c)) (firstn k rest) d0.

(** Step [i], counted from 1: its offset is the total before it minus [c]. *)
Definition step_offset (d0 : num) (rest : list num) (c : num) (i : nat)
    : num :=
  nsub (running_total d0 rest c (i - 1)) c.

Definition step_label (k : nat) : string :=
  match k with
  | O => "[0:v]"
  | S _ => out_label (Z.of_nat k)
  end.

Definition step_line (d0 : num) (rest : list num) (c : num)
    (transition : string) (i : nat) : string :=
  xfade_line (step_label (i - 1)) (Z.of_nat i) transition c
             (step_offset d0 rest c i) (out_label (Z.of_nat i)).

End XFade.

(** ** Motion filter planner *)

Section KenBurns.

Context {num : Type} `{PyFloat num}.

(** [int(duration * fps)], [fps] an int. *)
Definition total_frames (duration : num) (fps : Z) : result Z :=
  rbind (of_int fps) (fun f => to_int (nmul duration f)).

Definition zoom_expr (start_zoom end_zoom : num) (frames : Z) : string :=
  "'" ++ str_num start_zoom ++ " + (" ++ str_num end_zoom ++ " - "
      ++ str_num start_zoom ++ ")*(on/" ++ Py.str_int frames ++ ")'".

Definition x_expr : string := "'iw/2 - (iw/zoom/2)'".
Definition y_expr : string := "'ih/2 - (ih/zoom/2)'".

Definition zoompan_part (start_zoom end_zoom : num) (frames inner_w inner_h : Z)
    : string :=
  "zoompan=z=" ++ zoom_expr start_zoom end_zoom frames
    ++ ":x=" ++ x_expr ++ ":y=" ++ y_expr
    ++ ":d=" ++ Py.str_int frames
    ++ ":s=" ++ Py.str_int inner_w ++ "x" ++ Py.str_int inner_h.

Definition pad_part (slideshow_width slideshow_height border_size : Z)
    (border_color : string) : string :=
  "pad=" ++ Py.str_int slideshow_width ++ ":" ++ Py.str_int slideshow_height
    ++ ":" ++ Py.str_int border_size ++ ":" ++ Py.str_int border_size
    ++ ":" ++ border_color.

Definition build_ken_burns_filter (duration : num) (fps : Z)
    (start_zoom end_zoom : num) (border_size : Z) (border_color : string)
    (slideshow_width slideshow_height : Z) : result string :=
  rbind (total_frames duration fps) (fun frames =>
    let inner_w := slideshow_width - 2 * border_size in
    let inner_h := slideshow_height - 2 * border_size in
    let zoompan := zoompan_part start_zoom end_zoom frames inner_w inner_h in
    if border_size >? 0 then
      Ok (zoompan ++ ","
            ++ pad_part slideshow_width slideshow_height border_size
                        border_color)%string
    else Ok zoompan).

End KenBurns.

(** ** The environment *)

(** A naive [datetime]; Python compares two of them field by field. *)
Record datetime : Type := mkdatetime {
  year : Z; month : Z; day : Z;
  hour : Z; minute : Z; second : Z; microsecond : Z
}.

(** [a < b] on datetimes. *)
Definition dt_ltb (a b : datetime) : bool :=
  (year a <? year b) || (year a =? year b) &&
  ((month a <? month b) || (month a =? month b) &&
  ((day a <? day b) || (day a =? day b) &&
  ((hour a <? hour b) || (hour a =? hour b) &&
  ((minute a <? minute b) || (minute a =? minute b) &&
  ((second a <? second b) || (second a =? second b) &&
  (microsecond a <? microsecond b)))))).

(** [a == b] on datetimes. *)
Definition dt_eqb (a b : datetime) : bool :=
  (year a =? year b) && (month a =? month b) && (day a =? day b)
  && (hour a =? hour b) && (minute a =? minute b) && (second a =? second b)
  && (microsecond a =? microsecond b).

(** A value of the EXIF dictionary: a string, or anything else (bytes, a
    number, a tuple), on which [strptime] raises TypeError. *)
Inductive exif_value : Type :=
| ExifStr (s : string)
| ExifOther.

(** What [Image.open(p)._getexif()] does: it raises, or it returns [None] or
    a dictionary, given by its items in iteration order. *)
Inductive exif_read : Type :=
| ExifRaises
| ExifReturns (data : option (list (Z * exif_value))).

(** The events of a run that the outside can see. *)
Inductive event : Type :=
| Print (args : list string)
| Run (cmd : list string)
| Rename (src dst : string)
| TempDirCreated (dir : string)
| TempDirRemoved (dir : string).

Record Env : Type := {
  (** [os.path.exists] *)
  path_exists : string -> bool;
  (** the lines that iterating the opened text file yields *)
  read_lines : string -> result (list string);
  (** [glob.glob] *)
  glob_glob : string -> list string;
  (** [datetime.fromtimestamp(os.path.getmtime(p))] *)
  mtime : string -> result datetime;
  (** [Image.open(p)._getexif()] *)
  getexif : string -> exif_read;
  (** [datetime.strptime(value, format)], [None] for ValueError *)
  strptime : string -> string -> option datetime;
  (** the directory [tempfile.TemporaryDirectory()] creates *)
  mkdtemp : string;
  (** whether the process [subprocess.run] starts exits with status zero *)
  exit_ok : list string -> bool;
  (** whether [os.rename(src, dst)] succeeds *)
  rename_ok : string -> string -> bool
}.

(** ** Image sequencer *)

(** The entries of [PIL.ExifTags.TAGS] around the two the program looks for;
    no other id of that table carries one of the two names. *)
Definition TAGS (tag_id : Z) : option string :=
  match tag_id with
  | 271 => Some "Make"
  | 272 => Some "Model"
  | 306 => Some "DateTime"
  | 36867 => Some "DateTimeOriginal"
  | 36868 => Some "DateTimeDigitized"
  | _ => None
  end.

(** [TAGS.get(tag_id, tag_id) in ["DateTimeOriginal", "DateTime"]]; an id
    that is not in the table stays an int and equals neither string. *)
Definition is_datetime_tag (tag_id : Z) : bool :=
  match TAGS tag_id with
  | Some tag => String.eqb tag "DateTimeOriginal" || String.eqb tag "DateTime"
  | None => false
  end.

(** How the [try] block of [get_exif_datetime] ends. *)
Inductive try_outcome : Type :=
| Returned (d : datetime)
| Excepted
| FellThrough.

(** The loop over [exif_data.items()]. *)
Fixpoint exif_loop (env : Env) (items : list (Z * exif_value)) : try_outcome :=
  match items with
  | [] => FellThrough
  | (tag_id, value) :: rest =>
      if is_datetime_tag tag_id then
        match value with
        | ExifStr s =>
            match strptime env s "%Y:%m:%d %H:%M:%S" with
            | Some d => Returned d
            | None => Excepted
            end
        | ExifOther => Excepted
        end
      else exif_loop env rest
  end.

Definition exif_try (env : Env) (image_path : string) : try_outcome :=
  match getexif env image_path with
  | ExifRaises => Excepted
  | ExifReturns None => FellThrough
  | ExifReturns (Some items) => exif_loop env items
  end.

Definition get_exif_datetime (env : Env) (image_path : string)
    : result datetime :=
  match exif_try env image_path with
  | Returned d => Ok d
  | Excepted | FellThrough => mtime env image_path
  end.

(** [list.sort(key=...)]: the keys are computed once, in list order, and an
    exception of the key function leaves the sort.  The sort is stable and
    compares keys with [<] only; on a strict weak order every stable sort
    returns the same list, here by insertion from the right. *)
Fixpoint keyed (key : string -> result datetime) (l : list string)
    : result (list (datetime * string)) :=
  match l with
  | [] => Ok []
  | x :: rest =>
      rbind (key x) (fun k =>
        rbind (keyed key rest) (fun ks => Ok ((k, x) :: ks)))
  end.

Fixpoint insert_keyed (x : datetime * string) (l : list (datetime * string))
    : list (datetime * string) :=
  match l with
  | [] => [x]
  | y :: rest =>
      if dt_ltb (fst y) (fst x) then y :: insert_keyed x rest
      else x :: y :: rest
  end.

Fixpoint sort_keyed (l : list (datetime * string))
    : list (datetime * string) :=
  match l with
  | [] => []
  | x :: rest => insert_keyed x (sort_keyed rest)
  end.

Definition sort_by_key (key : string -> result datetime) (l : list string)
    : result (list string) :=
  rbind (keyed key l) (fun ks => Ok (map snd (sort_keyed ks))).

Definition exts : list string := ["*.jpg"; "*.jpeg"; "*.png"].

(** [order_file and os.path.exists(order_file)] *)
Definition manifest_used (env : Env) (order_file : option string) : bool :=
  match order_file with
  | None => false
  | Some f => Py.truthy f && path_exists env f
  end.

Definition manifest_names (lines : list string) : list string :=
  map Py.strip (filter (fun line => Py.truthy (Py.strip line)) lines).

Definition globbed (env : Env) (images_dir : string) : list string :=
  flat_map (fun ext => glob_glob env (Py.path_join images_dir ext)) exts.

Definition get_image_file_list (env : Env) (images_dir : string)
    (order_file : option string) : result (list string) :=
  match order_file with
  | Some f =>
      if Py.truthy f && path_exists env f then
        rbind (read_lines env f) (fun lines =>
          let names := manifest_names lines in
          let file_paths := map (Py.path_join images_dir) names in
          Ok (filter (path_exists env) file_paths))
      else sort_by_key (get_exif_datetime env) (globbed env images_dir)
  | None => sort_by_key (get_exif_datetime env) (globbed env images_dir)
  end.

(** ** Runs: a trace of events and a result *)

Definition M (A : Type) : Type := (list event * result A)%type.

Definition ret {A : Type} (a : A) : M A := ([], Ok a).

Definition raise {A : Type} (e : exn) : M A := ([], Raise e).

Definition bind {A B : Type} (m : M A) (k : A -> M B) : M B :=
  match m with
  | (t, Ok a) => let '(t', r) := k a in (t ++ t', r)
  | (t, Raise e) => (t, Raise e)
  end.

Definition lift {A : Type} (r : result A) : M A := ([], r).

Definition emit (e : event) : M unit := ([e], Ok tt).

Notation "x <- m ;; k" := (bind m (fun x => k))
  (at level 61, m at next level, right associativity).
Notation "' p <- m ;; k" := (bind m (fun x => match x with p => k end))
  (at level 61, p pattern, m at next level, right associativity).
Notation "m ;; k" := (bind m (fun _ => k))
  (at level 61, right associativity).

Definition trace {A : Type} (m : M A) : list event := fst m.
Definition outcome {A : Type} (m : M A) : result A := snd m.

(** [subprocess.run(cmd, check=True)] *)
Definition subprocess_run (env : Env) (cmd : list string) : M unit :=
  emit (Run cmd) ;;
  if exit_ok env cmd then ret tt else raise (CalledProcessError cmd).

(** [os.rename(src, dst)] *)
Definition os_rename (env : Env) (src dst : string) : M unit :=
  emit (Rename src dst) ;;
  if rename_ok env src dst then ret tt else raise (OSError src).

(** [with tempfile.TemporaryDirectory() as tmp_dir: body]: the directory is
    removed however the body ends. *)
Definition with_temporary_directory {A : Type} (env : Env)
    (body : string -> M A) : M A :=
  let tmp_dir := mkdtemp env in
  let '(t, r) := body tmp_dir in
  (TempDirCreated tmp_dir :: t ++ [TempDirRemoved tmp_dir], r).

(** ** Segment renderer and composer *)

Section Composer.

Context {num : Type} `{PyFloat num}.

(** The zoom of segment [i]: in on even [i], out on odd [i]. *)
Definition zoom_range (i : Z) (zoom_factor : num) : num * num :=
  if i mod 2 =? 0 then (one, zoom_factor) else (zoom_factor, one).

Definition segment_path (tmp_dir : string) (i : Z) : string :=
  Py.path_join tmp_dir ("segment_" ++ Py.fmt_03d i ++ ".mp4").

Definition segment_cmd (duration_per_image : num) (fps : Z)
    (img_path filter_str seg_path : string) : list string :=
  [ "ffmpeg"; "-y"; "-loop"; "1";
    "-t"; str_num duration_per_image;
    "-i"; img_path;
    "-vf"; filter_str;
    "-r"; Py.str_int fps;
    "-c:v"; "libx264";
    "-pix_fmt"; "yuv420p";
    seg_path ].

(** The loop of [generate_ken_burns_segments] from index [i] on. *)
Fixpoint segments_loop (env : Env) (i : Z) (images : list string)
    (tmp_dir : string) (duration_per_image : num) (fps : Z) (zoom_factor : num)
    (border_size : Z) (border_color : string)
    (slideshow_width slideshow_height : Z)
    (segment_paths : list string) (segment_lengths : list num)
    : M (list string * list num) :=
  match images with
  | [] => ret (segment_paths, segment_lengths)
  | img_path :: rest =>
      let seg_path := segment_path tmp_dir i in
      let '(start_zoom, end_zoom) := zoom_range i zoom_factor in
      filter_str <- lift (build_ken_burns_filter duration_per_image fps
                            start_zoom end_zoom border_size border_color
                            slideshow_width slideshow_height) ;;
      subprocess_run env
        (segment_cmd duration_per_image fps img_path filter_str seg_path) ;;
      segments_loop env (i + 1) rest tmp_dir duration_per_image fps
        zoom_factor border_size border_color slideshow_width slideshow_height
        (segment_paths ++ [seg_path]) (segment_lengths ++ [duration_per_image])
  end.

Definition generate_ken_burns_segments (env : Env) (images : list string)
    (tmp_dir : string) (duration_per_image : num) (fps : Z) (zoom_factor : num)
    (border_size : Z) (border_color : string)
    (slideshow_width slideshow_height : Z) : M (list string * list num) :=
  segments_loop env 0 images tmp_dir duration_per_image fps zoom_factor
    border_size border_color slideshow_width slideshow_height [] [].

(** The keyword arguments of [create_slideshow]. *)
Record options : Type := {
  images_dir : string;
  output_file : string;
  order_file : option string;
  duration_per_image : num;
  fps : Z;
  zoom_factor : num;
  border_size : Z;
  border_color : string;
  slideshow_width : Z;
  slideshow_height : Z;
  crossfade_duration : num;
  crossfade_transition : string
}.

Definition merge_cmd (segment_paths : list string)
    (xfade_filter_str final_label output : string) : list string :=
  ["ffmpeg"; "-y"]
    ++ flat_map (fun seg_path => ["-i"; seg_path]) segment_paths
    ++ (if Py.truthy xfade_filter_str then
          [ "-filter_complex"; xfade_filter_str;
            "-map"; final_label;
            "-c:v"; "libx264";
            "-pix_fmt"; "yuv420p";
            output ]
        else [ "-c:v"; "copy"; output ]).

Definition create_slideshow (env : Env) (o : options) : M unit :=
  images <- lift (get_image_file_list env (images_dir o) (order_file o)) ;;
  match images with
  | [] => emit (Print ["No images found in"; images_dir o])
  | _ :: _ =>
      with_temporary_directory env (fun tmp_dir =>
        ' (segment_paths, segment_lengths) <-
          generate_ken_burns_segments env images tmp_dir
            (duration_per_image o) (fps o) (zoom_factor o) (border_size o)
            (border_color o) (slideshow_width o) (slideshow_height o) ;;
        if Z.of_nat (List.length segment_paths) =? 1 then
          seg <- lift (match Py.index segment_paths 0 with
                       | Some p => Ok p
                       | None => Raise IndexError
                       end) ;;
          os_rename env seg (output_file o) ;;
          emit (Print [("Slideshow created with only one image: "
                          ++ output_file o)%string])
        else
          ' (xfade_filter_str, final_label) <-
            lift (build_xfade_filter (Z.of_nat (List.length segment_paths))
                    segment_lengths (crossfade_duration o)
                    (crossfade_transition o)) ;;
          subprocess_run env
            (merge_cmd segment_paths xfade_filter_str final_label
                       (output_file o)) ;;
          emit (Print
            [("Slideshow created with alternating zoom-in/out crossfades: "
                ++ output_file o)%string]))
  end.

End Composer.

Arguments options num : clear implicits.

(** ** Vocabulary of the statements *)

(** [enumerate(l, start)] *)
Fixpoint enumerate_from {A : Type} (i : Z) (l : list A) : list (Z * A) :=
  match l with
  | [] => []
  | x :: rest => (i, x) :: enumerate_from (i + 1) rest
  end.

Section RenderCalls.

Context {num : Type} `{PyFloat num}.

(** The render call of segment [i], given the two filters a run can build:
    [f_in] for a zoom from 1.0 to the zoom factor, [f_out] for the reverse. *)
Definition render_call (tmp_dir : string) (duration_per_image : num) (fps : Z)
    (f_in f_out : string) (entry : Z * string) : event :=
  let '(i, img_path) := entry in
  Run (segment_cmd duration_per_image fps img_path
         (if Z.even i then f_in else f_out) (segment_path tmp_dir i)).

Definition render_calls (tmp_dir : string) (duration_per_image : num)
    (fps : Z) (f_in f_out : string) (images : list string) : list event :=
  map (render_call tmp_dir duration_per_image fps f_in f_out)
      (enumerate_from 0 images).

End RenderCalls.

(** The order of the sort on decorated entries: [y] is not before [x]. *)
Definition key_le (x y : datetime * string) : Prop :=
  dt_ltb (fst y) (fst x) = false.

(** The entries with the key [t]. *)
Definition has_key (t : datetime) (x : datetime * string) : bool :=
  dt_eqb (fst x) t.

(** An entry is a path with its own timestamp. *)
Definition decorated (ts : string -> datetime) (x : datetime * string)
    : Prop :=
  fst x = ts (snd x).

Definition is_run (e : event) : bool :=
  match e with
  | Run _ => true
  | _ => false
  end.

(** A run is rejected before rendering when it raises and no process was
    started. *)
Definition rejected_before_rendering {A : Type} (m : M A) : Prop :=
  (exists e, outcome m = Raise e) /\ filter is_run (trace m) = [].

(** ** Concrete inputs *)

Module Examples.

Import Binary64.

Definition noon (d : Z) : datetime := mkdatetime 2024 5 d 12 0 0 0.

(** A directory with two photographs and no EXIF data. *)
Definition two_photos : Env := {|
  path_exists := fun _ => true;
  read_lines := fun _ => Ok [];
  glob_glob := fun pattern =>
    if String.eqb pattern "imgs/*.jpg" then ["imgs/a.jpg"; "imgs/b.jpg"]
    else [];
  mtime := fun p => Ok (if String.eqb p "imgs/a.jpg" then noon 1 else noon 2);
  getexif := fun _ => ExifReturns None;
  strptime := fun _ _ => None;
  mkdtemp := "/tmp/tmpk3";
  exit_ok := fun _ => true;
  rename_ok := fun _ _ => true
|}.

(** A directory with one photograph. *)
Definition one_photo : Env := {|
  path_exists := fun _ => true;
  read_lines := fun _ => Ok [];
  glob_glob := fun pattern =>
    if String.eqb pattern "imgs/*.png" then ["imgs/a.png"] else [];
  mtime := fun _ => Ok (noon 1);
  getexif := fun _ => ExifRaises;
  strptime := fun _ _ => None;
  mkdtemp := "/tmp/tmpk3";
  exit_ok := fun _ => true;
  rename_ok := fun _ _ => true
|}.

(** A directory without images. *)
Definition no_photos : Env := {|
  path_exists := fun _ => true;
  read_lines := fun _ => Ok [];
  glob_glob := fun _ => [];
  mtime := fun p => Raise (FileNotFoundError p);
  getexif := fun _ => ExifRaises;
  strptime := fun _ _ => None;
  mkdtemp := "/tmp/tmpk3";
  exit_ok := fun _ => true;
  rename_ok := fun _ _ => true
|}.

(** A manifest [order.txt] of three names, one of them missing on disk;
    the modification times run against the manifest order. *)
Definition with_manifest : Env := {|
  path_exists := fun p => negb (String.eqb p "imgs/gone.jpg");
  read_lines := fun p =>
    if String.eqb p "order.txt"
    then Ok ["  z.jpg " ++ String "010" ""; String "010" "";
             "gone.jpg" ++ String "010" ""; "a.jpg"]%string
    else Raise (FileNotFoundError p);
  glob_glob := fun _ => ["imgs/a.jpg"; "imgs/z.jpg"];
  mtime := fun p => Ok (if String.eqb p "imgs/a.jpg" then noon 1 else noon 2);
  getexif := fun _ => ExifReturns None;
  strptime := fun _ _ => None;
  mkdtemp := "/tmp/tmpk3";
  exit_ok := fun _ => true;
  rename_ok := fun _ _ => true
|}.

(** Four files in enumeration order; [b.jpg] and [c.jpg] share a timestamp
    later than [d.png]'s and [a.jpg] is the latest. *)
Definition tied_photos : Env := {|
  path_exists := fun _ => true;
  read_lines := fun _ => Ok [];
  glob_glob := fun pattern =>
    if String.eqb pattern "imgs/*.jpg"
    then ["imgs/a.jpg"; "imgs/b.jpg"; "imgs/c.jpg"]
    else if String.eqb pattern "imgs/*.png" then ["imgs/d.png"] else [];
  mtime := fun p =>
    Ok (if String.eqb p "imgs/a.jpg" then noon 9
        else if String.eqb p "imgs/d.png" then noon 1 else noon 5);
  getexif := fun _ => ExifReturns None;
  strptime := fun _ _ => None;
  mkdtemp := "/tmp/tmpk3";
  exit_ok := fun _ => true;
  rename_ok := fun _ _ => true
|}.

Definition tied_times (p : string) : datetime :=
  if String.eqb p "imgs/a.jpg" then noon 9
  else if String.eqb p "imgs/d.png" then noon 1 else noon 5.

(** A camera JPEG that carries both date tags: PIL lists the tags of the
    main directory (DateTime, 306) before those of the Exif directory
    (DateTimeOriginal, 36867). *)
Definition taken : datetime := mkdatetime 2019 7 14 9 30 0 0.
Definition edited : datetime := mkdatetime 2021 2 3 18 45 10 0.

Definition both_tags : Env := {|
  path_exists := fun _ => true;
  read_lines := fun _ => Ok [];
  glob_glob := fun _ => [];
  mtime := fun _ => Ok (noon 1);
  getexif := fun _ =>
    ExifReturns (Some [ (271, ExifStr "ACME");
                        (306, ExifStr "2021:02:03 18:45:10");
                        (36867, ExifStr "2019:07:14 09:30:00") ]);
  strptime := fun value _ =>
    if String.eqb value "2019:07:14 09:30:00" then Some taken
    else if String.eqb value "2021:02:03 18:45:10" then Some edited
    else None;
  mkdtemp := "/tmp/tmpk3";
  exit_ok := fun _ => true;
  rename_ok := fun _ _ => true
|}.

(** The default options, with the zoom factor 1.25. *)
Definition defaults : options float := {|
  images_dir := "imgs";
  output_file := "slideshow.mp4";
  order_file := None;
  duration_per_image := 3%float;
  fps := 25;
  zoom_factor := 1.25%float;
  border_size := 0;
  border_color := "black";
  slideshow_width := 1920;
  slideshow_height := 1080;
  crossfade_duration := 1%float;
  crossfade_transition := "fade"
|}.

(** The same with a crossfade of 5.0 s, longer than the 3.0 s segments. *)
Definition long_crossfade : options float := {|
  images_dir := "imgs";
  output_file := "slideshow.mp4";
  order_file := None;
  duration_per_image := 3%float;
  fps := 25;
  zoom_factor := 1.25%float;
  border_size := 0;
  border_color := "black";
  slideshow_width := 1920;
  slideshow_height := 1080;
  crossfade_duration := 5%float;
  crossfade_transition := "fade"
|}.

(** What the runs on these inputs hand to ffmpeg. *)
Definition zoom_in_filter : string :=
  "zoompan=z='1.0 + (1.25 - 1.0)*(on/75)'"
    ++ ":x='iw/2 - (iw/zoom/2)':y='ih/2 - (ih/zoom/2)':d=75:s=1920x1080".

Definition zoom_out_filter : string :=
  "zoompan=z='1.25 + (1.0 - 1.25)*(on/75)'"
    ++ ":x='iw/2 - (iw/zoom/2)':y='ih/2 - (ih/zoom/2)':d=75:s=1920x1080".

Definition render_of (img filter_str clip : string) : list string :=
  [ "ffmpeg"; "-y"; "-loop"; "1"; "-t"; "3.0"; "-i"; img; "-vf"; filter_str;
    "-r"; "25"; "-c:v"; "libx264"; "-pix_fmt"; "yuv420p"; clip ].

End Examples.

(** ** Vocabulary of the further properties *)

Section RenderCommands.

Context {num : Type} `{PyFloat num}.

(** The command line of the render call of one enumerated image. *)
Definition render_cmd (tmp_dir : string) (duration_per_image : num) (fps : Z)
    (f_in f_out : string) (entry : Z * string) : list string :=
  segment_cmd duration_per_image fps (snd entry)
    (if Z.even (fst entry) then f_in else f_out)
    (segment_path tmp_dir (fst entry)).

(** The clip paths of a list of images, in order. *)
Definition clip_paths (tmp_dir : string) (images : list string)
    : list string :=
  map (fun entry => segment_path tmp_dir (fst entry))
      (enumerate_from 0 images).

End RenderCommands.

(** Reading a run of decimal digits back, leading zeros allowed. *)
Definition parse_digits (s : string) : option Z :=
  option_map Z.of_uint (NilEmpty.uint_of_string s).

(** The first date tag of an EXIF dictionary, in iteration order. *)
Definition first_date_tag (items : list (Z * exif_value))
    : option (Z * exif_value) :=
  find (fun item => is_datetime_tag (fst item)) items.

Module MoreExamples.

(** ffmpeg fails on the second photograph. *)
Definition second_render_fails : Env := {|
  path_exists := path_exists Examples.two_photos;
  read_lines := read_lines Examples.two_photos;
  glob_glob := fun pattern =>
    if String.eqb pattern "imgs/*.jpg"
    then ["imgs/a.jpg"; "imgs/b.jpg"; "imgs/c.jpg"] else [];
  mtime := fun p =>
    Ok (if String.eqb p "imgs/a.jpg" then Examples.noon 1
        else if String.eqb p "imgs/b.jpg" then Examples.noon 2
        else Examples.noon 3);
  getexif := getexif Examples.two_photos;
  strptime := strptime Examples.two_photos;
  mkdtemp := "/tmp/tmpk3";
  exit_ok := fun cmd => negb (existsb (String.eqb "imgs/b.jpg") cmd);
  rename_ok := fun _ _ => true
|}.

(** The renders succeed and the merge fails. *)
Definition merge_fails : Env := {|
  path_exists := path_exists Examples.two_photos;
  read_lines := read_lines Examples.two_photos;
  glob_glob := glob_glob Examples.two_photos;
  mtime := mtime Examples.two_photos;
  getexif := getexif Examples.two_photos;
  strptime := strptime Examples.two_photos;
  mkdtemp := "/tmp/tmpk3";
  exit_ok := fun cmd => negb (existsb (String.eqb "-filter_complex") cmd);
  rename_ok := fun _ _ => true
|}.

(** A photograph that has vanished between the listing and the sort: no
    EXIF data can be read and it has no modification time. *)
Definition vanished_photo : Env := {|
  path_exists := fun p => negb (String.eqb p "imgs/b.jpg");
  read_lines := fun p => Raise (FileNotFoundError p);
  glob_glob := fun pattern =>
    if String.eqb pattern "imgs/*.jpg"
    then ["imgs/a.jpg"; "imgs/b.jpg"; "imgs/c.jpg"] else [];
  mtime := fun p =>
    if String.eqb p "imgs/a.jpg" then Ok (Examples.noon 1)
    else Raise (FileNotFoundError p);
  getexif := fun _ => ExifRaises;
  strptime := fun _ _ => None;
  mkdtemp := "/tmp/tmpk3";
  exit_ok := fun _ => true;
  rename_ok := fun _ _ => true
|}.

(** The directory of [Examples.tied_photos] listed in another order, with
    distinct timestamps. *)
Definition days (p : string) : datetime :=
  if String.eqb p "imgs/a.jpg" then Examples.noon 9
  else if String.eqb p "imgs/b.jpg" then Examples.noon 5
  else if String.eqb p "imgs/c.jpg" then Examples.noon 7
  else Examples.noon 1.

Definition listed (files : list string) : Env := {|
  path_exists := fun _ => true;
  read_lines := fun _ => Ok [];
  glob_glob := fun pattern =>
    if String.eqb pattern "imgs/*.jpg" then files else [];
  mtime := fun p => Ok (days p);
  getexif := fun _ => ExifReturns None;
  strptime := fun _ _ => None;
  mkdtemp := "/tmp/tmpk3";
  exit_ok := fun _ => true;
  rename_ok := fun _ _ => true
|}.

(** A photograph whose DateTime value is not a date; a valid
    DateTimeOriginal follows it. *)
Definition broken_first_tag : Env := {|
  path_exists := fun _ => true;
  read_lines := fun _ => Ok [];
  glob_glob := fun _ => [];
  mtime := fun _ => Ok (Examples.noon 3);
  getexif := fun _ =>
    ExifReturns (Some [ (272, ExifStr "X100");
                        (306, ExifStr "0000:00:00 00:00:00");
                        (36867, ExifStr "2019:07:14 09:30:00") ]);
  strptime := fun value _ =>
    if String.eqb value "2019:07:14 09:30:00" then Some Examples.taken
    else None;
  mkdtemp := "/tmp/tmpk3";
  exit_ok := fun _ => true;
  rename_ok := fun _ _ => true
|}.

(** Infinite duration: [int(duration * fps)] raises OverflowError. *)
Definition endless : options float := {|
  images_dir := "imgs";
  output_file := "slideshow.mp4";
  order_file := None;
  duration_per_image := infinity;
  fps := 25;
  zoom_factor := 1.25%float;
  border_size := 0;
  border_color := "black";
  slideshow_width := 1920;
  slideshow_height := 1080;
  crossfade_duration := 1%float;
  crossfade_transition := "fade"
|}.

(** A manifest that cannot be opened. *)
Definition unreadable_manifest : options float := {|
  images_dir := "imgs";
  output_file := "slideshow.mp4";
  order_file := Some "order.txt";
  duration_per_image := 3%float;
  fps := 25;
  zoom_factor := 1.25%float;
  border_size := 0;
  border_color := "black";
  slideshow_width := 1920;
  slideshow_height := 1080;
  crossfade_duration := 1%float;
  crossfade_transition := "fade"
|}.

End MoreExamples.

(** * Properties *)

(** ** Indexing *)

Lemma index_head {A : Type} (x : A) (l : list A) : Py.index (x :: l) 0 = Some x.
Proof.
  unfold Py.index.
  replace (0 <? Z.of_nat (List.length (x :: l))) with true.
  - reflexivity.
  - symmetry. apply Z.ltb_lt. simpl List.length. lia.
Qed.

Lemma index_tail {A : Type} (x d : A) (l : list A) (k : nat) :
  nth_error l k = Some d ->
  Py.index (x :: l) (Z.of_nat (S k)) = Some d.
Proof.
  intros Hk.
  assert (Hlt : (k < List.length l)%nat)
    by (apply nth_error_Some; congruence).
  unfold Py.index.
  replace (0 <=? Z.of_nat (S k)) with true by (symmetry; apply Z.leb_le; lia).
  replace (Z.of_nat (S k) <? Z.of_nat (List.length (x :: l))) with true
    by (symmetry; apply Z.ltb_lt; simpl List.length; lia).
  simpl andb. cbv iota.
  rewrite Nat2Z.id. exact Hk.
Qed.

Lemma index_in_range {A : Type} (l : list A) (k : nat) :
  (k < List.length l)%nat -> exists d, nth_error l k = Some d.
Proof.
  intros Hk. destruct (nth_error l k) as [d|] eqn:E.
  - now exists d.
  - apply nth_error_None in E. lia.
Qed.

(** ** The crossfade timeline *)

Section XFadeFacts.

Context {num : Type} `{PyFloat num}.

Lemma running_total_zero (d0 : num) (rest : list num) (c : num) :
  running_total d0 rest c 0 = d0.
Proof. reflexivity. Qed.

Lemma running_total_step (d0 : num) (rest : list num) (c : num) (k : nat)
    (d : num) :
  nth_error rest k = Some d ->
  running_total d0 rest c (S k) = nadd (running_total d0 rest c k) (nsub d c).
Proof.
  unfold running_total. revert d0 k.
  induction rest as [|x rest IH]; intros d0 k Hk.
  - destruct k; discriminate.
  - destruct k as [|k].
    + simpl in Hk. injection Hk as ->. destruct rest; reflexivity.
    + simpl in Hk. change (firstn (S (S k)) (x :: rest))
        with (x :: firstn (S k) rest).
      change (firstn (S k) (x :: rest)) with (x :: firstn k rest).
      simpl fold_left. now apply IH.
Qed.

Lemma step_label_succ (k : nat) : step_label (S k) = out_label (Z.of_nat (S k)).
Proof. reflexivity. Qed.

(** The loop, entered after [k] steps with the state the specification
    predicts, ends in the state predicted after [k + n] steps. *)
Lemma xfade_loop_steps (d0 : num) (rest : list num) (c : num) (tr : string)
    (n k : nat) :
  (k + n <= List.length rest)%nat ->
  xfade_loop n (Z.of_nat (S k)) (d0 :: rest) c tr
             (map (step_line d0 rest c tr) (seq 1 k)) (step_label k)
             (running_total d0 rest c k)
  = Ok (map (step_line d0 rest c tr) (seq 1 (k + n)), step_label (k + n)).
Proof.
  revert k. induction n as [|n IH]; intros k Hk.
  - rewrite Nat.add_0_r. reflexivity.
  - destruct (index_in_range rest k) as [d Hd]; [lia|].
    cbn [xfade_loop].
    rewrite (index_tail d0 d rest k Hd).
    replace (Z.of_nat (S k) + 1) with (Z.of_nat (S (S k))) by lia.
    rewrite <- (running_total_step d0 rest c k d Hd).
    rewrite <- step_label_succ.
    replace (map (step_line d0 rest c tr) (seq 1 k) ++
             [xfade_line (step_label k) (Z.of_nat (S k)) tr c
                (nsub (running_total d0 rest c k) c)
                (out_label (Z.of_nat (S k)))])
      with (map (step_line d0 rest c tr) (seq 1 (S k))).
    + rewrite (IH (S k)) by lia.
      replace (k + S n)%nat with (S k + n)%nat by lia. reflexivity.
    + rewrite seq_S, map_app. simpl map.
      unfold step_line, step_offset.
      now replace (S k - 1)%nat with k by lia.
Qed.

Lemma xfade_lines_plan (d0 : num) (rest : list num) (c : num) (tr : string) :
  xfade_lines (Z.of_nat (S (List.length rest))) (d0 :: rest) c tr
  = Ok (map (step_line d0 rest c tr) (seq 1 (List.length rest)),
        step_label (List.length rest)).
Proof.
  unfold xfade_lines. rewrite index_head.
  replace (Z.to_nat (Z.of_nat (S (List.length rest)) - 1))
    with (List.length rest) by lia.
  exact (xfade_loop_steps d0 rest c tr (List.length rest) 0 (le_n _)).
Qed.

Lemma build_xfade_filter_plan (d0 : num) (rest : list num) (c : num)
    (tr : string) :
  rest <> [] ->
  build_xfade_filter (Z.of_nat (S (List.length rest))) (d0 :: rest) c tr
  = Ok (String.concat "; "
          (map (step_line d0 rest c tr) (seq 1 (List.length rest))),
        step_label (List.length rest)).
Proof.
  intros Hrest. unfold build_xfade_filter.
  replace (Z.of_nat (S (List.length rest)) <=? 1) with false.
  - now rewrite xfade_lines_plan.
  - symmetry. apply Z.leb_gt. destruct rest; [congruence | simpl List.length; lia].
Qed.

(** C1. For segment durations [d0 :: rest] (two segments or more) and any
    crossfade duration [c], [build_xfade_filter] emits one line per segment
    after the first, [length rest] in all; the line of step [i] carries the
    offset [running - c], where [running] is the timeline total just before
    step [i]; the total starts at [d0] and step [i] updates it with
    [running += d[i] - c]. *)
Theorem xfade_offsets_follow_running_total :
  forall (d0 : num) (rest : list num) (c : num) (tr : string),
    rest <> [] ->
    let plan :=
      map (fun i =>
             xfade_line (step_label (i - 1)) (Z.of_nat i) tr c
                        (nsub (running_total d0 rest c (i - 1)) c)
                        (out_label (Z.of_nat i)))
          (seq 1 (List.length rest)) in
    xfade_lines (Z.of_nat (List.length (d0 :: rest))) (d0 :: rest) c tr
      = Ok (plan, step_label (List.length rest))
    /\ build_xfade_filter (Z.of_nat (List.length (d0 :: rest))) (d0 :: rest)
                          c tr
       = Ok (String.concat "; " plan, step_label (List.length rest))
    /\ List.length plan = (List.length (d0 :: rest) - 1)%nat
    /\ running_total d0 rest c 0 = d0
    /\ (forall k d,
          nth_error rest k = Some d ->
          running_total d0 rest c (S k)
          = nadd (running_total d0 rest c k) (nsub d c)).
Proof.
  intros d0 rest c tr Hrest plan.
  assert (Hplan : plan = map (step_line d0 rest c tr)
                             (seq 1 (List.length rest))) by reflexivity.
  rewrite Hplan. simpl List.length.
  repeat split.
  - apply xfade_lines_plan.
  - now apply build_xfade_filter_plan.
  - rewrite length_map, length_seq. lia.
  - intros k d. apply running_total_step.
Qed.

(** C10. With [segment_count <= 1], zero and negative counts included,
    [build_xfade_filter] returns the empty filter and the label ["[0:v]"]
    whatever [segment_lengths] is, the empty list included: it does not
    raise. *)
Theorem build_xfade_filter_degenerate :
  forall (segment_count : Z) (segment_lengths : list num) (c : num)
         (tr : string),
    segment_count <= 1 ->
    build_xfade_filter segment_count segment_lengths c tr = Ok ("", "[0:v]")
    /\ build_xfade_filter segment_count [] c tr = Ok ("", "[0:v]").
Proof.
  intros segment_count segment_lengths c tr Hle.
  unfold build_xfade_filter.
  apply Z.leb_le in Hle. rewrite Hle. split; reflexivity.
Qed.

End XFadeFacts.

(** The example of the specification: three segments of 3.0 s and a
    crossfade of 1.0 s give the offsets 2.0 and 4.0. *)
Lemma xfade_offsets_three_segments :
  build_xfade_filter 3 [3%float; 3%float; 3%float] 1%float "fade"
  = Ok (String.concat "; "
          [ "[0:v][1:v] xfade=transition=fade:duration=1.0:offset=2.0[v1]";
            "[v1][2:v] xfade=transition=fade:duration=1.0:offset=4.0[v2]" ],
        "[v2]")
  /\ nsub (running_total 3%float [3%float; 3%float] 1%float 0) 1%float
     = 2%float
  /\ nsub (running_total 3%float [3%float; 3%float] 1%float 1) 1%float
     = 4%float.
Proof.
  assert (Hne : [3%float; 3%float] <> []) by discriminate.
  destruct (xfade_offsets_follow_running_total
              3%float [3%float; 3%float] 1%float "fade" Hne)
    as (_ & Hbuild & _).
  split.
  - exact Hbuild.
  - split; vm_compute; reflexivity.
Defined.

Lemma build_xfade_filter_no_segments :
  (0 <= 1)%Z
  /\ build_xfade_filter 0 ([] : list float) 1%float "fade" = Ok ("", "[0:v]").
Proof.
  assert (Hle : 0 <= 1) by lia.
  split.
  - exact Hle.
  - exact (proj1 (build_xfade_filter_degenerate 0 [] 1%float "fade" Hle)).
Defined.

(** ** The motion filter *)

Lemma append_nonempty_neq (s t : string) : t <> "" -> (s ++ t)%string <> s.
Proof.
  intros Ht. induction s as [|a s IH]; simpl.
  - exact Ht.
  - intros E. injection E as E. now apply IH.
Qed.

Section KenBurnsFacts.

Context {num : Type} `{PyFloat num}.

Lemma build_ken_burns_filter_cases (duration : num) (fps : Z)
    (start_zoom end_zoom : num) (b : Z) (color : string) (w h frames : Z) :
  total_frames duration fps = Ok frames ->
  build_ken_burns_filter duration fps start_zoom end_zoom b color w h
  = Ok (if b >? 0
        then (zoompan_part start_zoom end_zoom frames (w - 2 * b) (h - 2 * b)
                ++ "," ++ pad_part w h b color)%string
        else zoompan_part start_zoom end_zoom frames (w - 2 * b) (h - 2 * b)).
Proof.
  intros Hframes. unfold build_ken_burns_filter. rewrite Hframes.
  simpl rbind. now destruct (b >? 0).
Qed.

Lemma build_ken_burns_filter_ok (duration : num) (fps : Z)
    (start_zoom end_zoom : num) (b : Z) (color : string) (w h frames : Z) :
  total_frames duration fps = Ok frames ->
  exists f,
    build_ken_burns_filter duration fps start_zoom end_zoom b color w h = Ok f.
Proof.
  intros Hframes. eexists. apply build_ken_burns_filter_cases. exact Hframes.
Qed.

(** C9. Once [int(duration * fps)] has a value, [build_ken_burns_filter]
    returns the zoompan stage sized [(w - 2b) x (h - 2b)]; with [b > 0] a pad
    stage follows that places this area at [(b, b)] in the [w x h] canvas
    (so the margins are [b] on every side) filled with the border colour, and
    with [b <= 0], [b = 0] in particular, the filter is the zoompan stage
    alone.  The pad stage is there exactly when [b > 0]. *)
Theorem ken_burns_inner_area_and_pad :
  forall (duration : num) (fps : Z) (start_zoom end_zoom : num) (b : Z)
         (color : string) (w h frames : Z),
    total_frames duration fps = Ok frames ->
    let motion :=
      ("zoompan=z=" ++ zoom_expr start_zoom end_zoom frames
         ++ ":x=" ++ x_expr ++ ":y=" ++ y_expr
         ++ ":d=" ++ Py.str_int frames
         ++ ":s=" ++ Py.str_int (w - 2 * b) ++ "x"
         ++ Py.str_int (h - 2 * b))%string in
    let pad :=
      ("pad=" ++ Py.str_int w ++ ":" ++ Py.str_int h
         ++ ":" ++ Py.str_int b ++ ":" ++ Py.str_int b
         ++ ":" ++ color)%string in
    let filter :=
      build_ken_burns_filter duration fps start_zoom end_zoom b color w h in
    (filter = Ok (motion ++ "," ++ pad)%string <-> 0 < b)
    /\ (filter = Ok motion <-> b <= 0)
    /\ w - (b + (w - 2 * b)) = b
    /\ h - (b + (h - 2 * b)) = b.
Proof.
  intros duration fps start_zoom end_zoom b color w h frames Hframes
         motion pad filter.
  assert (Hcases : filter = Ok (if b >? 0 then (motion ++ "," ++ pad)%string
                                else motion))
    by (now apply build_ken_burns_filter_cases).
  assert (Hneq : (motion ++ "," ++ pad)%string <> motion)
    by (apply append_nonempty_neq; discriminate).
  rewrite Hcases.
  destruct (b >? 0) eqn:Hb.
  - apply Z.gtb_lt in Hb. repeat split; try lia.
    intros E. congruence.
  - assert (b <= 0) by (rewrite Z.gtb_ltb in Hb; apply Z.ltb_ge in Hb; lia).
    repeat split; try lia.
    intros E. congruence.
Qed.

End KenBurnsFacts.

Lemma ken_burns_filter_bordered :
  total_frames 3%float 25 = Ok 75
  /\ build_ken_burns_filter 3%float 25 1%float 1.25%float 10 "black" 1920 1080
     = Ok ("zoompan=z='1.0 + (1.25 - 1.0)*(on/75)'"
           ++ ":x='iw/2 - (iw/zoom/2)':y='ih/2 - (ih/zoom/2)'"
           ++ ":d=75:s=1900x1060,pad=1920:1080:10:10:black")%string
  /\ build_ken_burns_filter 3%float 25 1%float 1.25%float 0 "black" 1920 1080
     = Ok ("zoompan=z='1.0 + (1.25 - 1.0)*(on/75)'"
           ++ ":x='iw/2 - (iw/zoom/2)':y='ih/2 - (ih/zoom/2)'"
           ++ ":d=75:s=1920x1080")%string.
Proof.
  assert (Hframes : total_frames 3%float 25 = Ok 75) by reflexivity.
  split; [exact Hframes|].
  split.
  - apply (proj2 (proj1 (ken_burns_inner_area_and_pad
             3%float 25 1%float 1.25%float 10 "black" 1920 1080 75 Hframes))).
    reflexivity.
  - apply (proj2 (proj1 (proj2 (ken_burns_inner_area_and_pad
             3%float 25 1%float 1.25%float 0 "black" 1920 1080 75 Hframes)))).
    discriminate.
Defined.

(** ** Runs *)

Lemma bind_lift_ok {A B : Type} (a : A) (k : A -> M B) :
  bind (lift (Ok a)) k = k a.
Proof. unfold bind, lift. now destruct (k a). Qed.

Lemma bind_lift_raise {A B : Type} (e : exn) (k : A -> M B) :
  bind (lift (Raise e)) k = ([], Raise e).
Proof. reflexivity. Qed.

Lemma bind_emit {B : Type} (e : event) (k : unit -> M B) :
  bind (emit e) k = (e :: trace (k tt), outcome (k tt)).
Proof. unfold bind, emit, trace, outcome. now destruct (k tt). Qed.

(** ** Rendering the segments *)

Section ComposerFacts.

Context {num : Type} `{PyFloat num}.

Lemma zoom_range_parity (i : Z) (zoom_factor : num) :
  zoom_range i zoom_factor
  = if Z.even i then (one, zoom_factor) else (zoom_factor, one).
Proof.
  unfold zoom_range. rewrite Zmod_even. now destruct (Z.even i).
Qed.

Section Segments.

Variable env : Env.
Variables (tmp_dir : string) (duration : num) (fps : Z) (zoom_factor : num).
Variables (b : Z) (color : string) (w h : Z).
Variables f_in f_out : string.

Hypothesis filter_in :
  build_ken_burns_filter duration fps one zoom_factor b color w h = Ok f_in.
Hypothesis filter_out :
  build_ken_burns_filter duration fps zoom_factor one b color w h = Ok f_out.

Let calls (i : Z) (images : list string) : list event :=
  map (render_call tmp_dir duration fps f_in f_out) (enumerate_from i images).

Let paths (i : Z) (images : list string) : list string :=
  map (fun entry => segment_path tmp_dir (fst entry)) (enumerate_from i images).

(** One iteration: the filter of segment [i], then its render call. *)
Lemma segments_loop_step (i : Z) (img : string) (rest : list string)
    (segment_paths : list string) (segment_lengths : list num) :
  segments_loop env i (img :: rest) tmp_dir duration fps zoom_factor b color
                w h segment_paths segment_lengths
  = (subprocess_run env
       (segment_cmd duration fps img (if Z.even i then f_in else f_out)
                    (segment_path tmp_dir i)) ;;
     segments_loop env (i + 1) rest tmp_dir duration fps zoom_factor b color
                   w h (segment_paths ++ [segment_path tmp_dir i])
                   (segment_lengths ++ [duration])).
Proof.
  cbn [segments_loop]. rewrite zoom_range_parity.
  destruct (Z.even i).
  - rewrite filter_in, bind_lift_ok. reflexivity.
  - rewrite filter_out, bind_lift_ok. reflexivity.
Qed.

(** Whatever the engine does, the render calls made are the first ones of
    the list that the parity rule predicts. *)
Lemma segments_loop_prefix (images : list string) :
  forall (i : Z) (segment_paths : list string) (segment_lengths : list num),
  exists k,
    trace (segments_loop env i images tmp_dir duration fps zoom_factor b color
                         w h segment_paths segment_lengths)
    = firstn k (calls i images).
Proof.
  induction images as [|img rest IH]; intros i segment_paths segment_lengths.
  - exists O. reflexivity.
  - rewrite segments_loop_step.
    destruct (IH (i + 1) (segment_paths ++ [segment_path tmp_dir i])
                 (segment_lengths ++ [duration])) as [k Hk].
    unfold subprocess_run, emit, bind, ret, raise, trace in *.
    destruct (exit_ok env _).
    + exists (S k).
      destruct (segments_loop env (i + 1) rest _ _ _ _ _ _ _ _ _ _)
        as [t r].
      simpl in Hk. subst t. reflexivity.
    + exists 1%nat. reflexivity.
Qed.

(** With an engine that succeeds, all the segments are rendered. *)
Lemma segments_loop_ok (images : list string) :
  (forall cmd, exit_ok env cmd = true) ->
  forall (i : Z) (segment_paths : list string) (segment_lengths : list num),
    segments_loop env i images tmp_dir duration fps zoom_factor b color w h
                  segment_paths segment_lengths
    = (calls i images,
       Ok (segment_paths ++ paths i images,
           segment_lengths ++ repeat duration (List.length images))).
Proof.
  intros Hok.
  induction images as [|img rest IH]; intros i segment_paths segment_lengths.
  - unfold calls, paths. simpl. now rewrite !app_nil_r.
  - rewrite segments_loop_step, IH.
    unfold subprocess_run, emit, bind, ret. rewrite Hok.
    unfold calls, paths. simpl. now rewrite <- !app_assoc.
Qed.

End Segments.

(** C3. Segment [i] is rendered with the filter built from [start_zoom = 1.0]
    and [end_zoom = zoom_factor] when [i] is even, and from
    [start_zoom = zoom_factor] and [end_zoom = 1.0] when [i] is odd; index 0
    zooms in.  The render calls of [generate_ken_burns_segments] are the
    first ones of [render_calls], which picks [f_in] on even and [f_out] on
    odd indices, and all of them when the engine succeeds. *)
Theorem zoom_alternates_by_parity :
  forall (env : Env) (images : list string) (tmp_dir : string)
         (duration : num) (fps : Z) (zoom_factor : num) (b : Z)
         (color : string) (w h : Z) (f_in f_out : string),
    build_ken_burns_filter duration fps one zoom_factor b color w h
      = Ok f_in ->
    build_ken_burns_filter duration fps zoom_factor one b color w h
      = Ok f_out ->
    let run :=
      generate_ken_burns_segments env images tmp_dir duration fps zoom_factor
                                  b color w h in
    (forall i, Z.even i = true -> zoom_range i zoom_factor = (one, zoom_factor))
    /\ (forall i, Z.odd i = true -> zoom_range i zoom_factor = (zoom_factor, one))
    /\ zoom_range 0 zoom_factor = (one, zoom_factor)
    /\ (exists k,
          trace run
          = firstn k (render_calls tmp_dir duration fps f_in f_out images))
    /\ ((forall cmd, exit_ok env cmd = true) ->
        trace run = render_calls tmp_dir duration fps f_in f_out images).
Proof.
  intros env images tmp_dir duration fps zoom_factor b color w h f_in f_out
         Hin Hout run.
  split; [|split; [|split; [|split]]].
  - intros i Hi. now rewrite zoom_range_parity, Hi.
  - intros i Hi. rewrite zoom_range_parity.
    rewrite <- Z.negb_odd, Hi. reflexivity.
  - reflexivity.
  - apply (segments_loop_prefix env tmp_dir duration fps zoom_factor b color
             w h f_in f_out Hin Hout images 0 [] []).
  - intros Hok. unfold run, generate_ken_burns_segments.
    now rewrite (segments_loop_ok env tmp_dir duration fps zoom_factor b color
                   w h f_in f_out Hin Hout images Hok).
Qed.

End ComposerFacts.

(** ** The composer *)

Section CreateSlideshowFacts.

Context {num : Type} `{PyFloat num}.

Lemma build_ken_burns_filter_frames (duration : num) (fps : Z)
    (start_zoom end_zoom : num) (b : Z) (color : string) (w h : Z)
    (f : string) :
  build_ken_burns_filter duration fps start_zoom end_zoom b color w h = Ok f ->
  exists frames, total_frames duration fps = Ok frames.
Proof.
  unfold build_ken_burns_filter.
  destruct (total_frames duration fps) as [frames|e].
  - intros _. now exists frames.
  - discriminate.
Qed.

Lemma length_enumerate_from {A : Type} (l : list A) :
  forall i, List.length (enumerate_from i l) = List.length l.
Proof.
  induction l as [|x l IH]; intros i; simpl; [reflexivity | now rewrite IH].
Qed.

(** The run after the sequencer returned one image. *)
Lemma create_slideshow_single (env : Env) (o : options num) (img f_in : string) :
  get_image_file_list env (images_dir o) (order_file o) = Ok [img] ->
  build_ken_burns_filter (duration_per_image o) (fps o) one (zoom_factor o)
    (border_size o) (border_color o) (slideshow_width o) (slideshow_height o)
    = Ok f_in ->
  exit_ok env (segment_cmd (duration_per_image o) (fps o) img f_in
                 (segment_path (mkdtemp env) 0)) = true ->
  create_slideshow env o
  = let clip := segment_path (mkdtemp env) 0 in
    let render :=
      Run (segment_cmd (duration_per_image o) (fps o) img f_in clip) in
    if rename_ok env clip (output_file o) then
      ([ TempDirCreated (mkdtemp env); render; Rename clip (output_file o);
         Print [("Slideshow created with only one image: "
                   ++ output_file o)%string];
         TempDirRemoved (mkdtemp env) ], Ok tt)
    else
      ([ TempDirCreated (mkdtemp env); render; Rename clip (output_file o);
         TempDirRemoved (mkdtemp env) ], Raise (OSError clip)).
Proof.
  intros Hseq Hin Hexit.
  destruct (build_ken_burns_filter_frames _ _ _ _ _ _ _ _ _ Hin)
    as [frames Hframes].
  destruct (build_ken_burns_filter_ok (duration_per_image o) (fps o)
              (zoom_factor o) one (border_size o) (border_color o)
              (slideshow_width o) (slideshow_height o) frames Hframes)
    as [f_out Hout].
  unfold create_slideshow. rewrite Hseq, bind_lift_ok.
  unfold with_temporary_directory, generate_ken_burns_segments.
  rewrite (segments_loop_step env (mkdtemp env) (duration_per_image o) (fps o)
             (zoom_factor o) (border_size o) (border_color o)
             (slideshow_width o) (slideshow_height o) f_in f_out Hin Hout).
  change (Z.even 0) with true. cbv iota.
  unfold subprocess_run. rewrite Hexit.
  cbn [segments_loop app].
  unfold bind at 3. unfold emit, ret.
  unfold bind at 2. cbn [app].
  unfold bind at 1.
  change (Z.of_nat (List.length [segment_path (mkdtemp env) 0]) =? 1)
    with true. cbv iota.
  rewrite index_head, bind_lift_ok.
  unfold os_rename, emit, raise, ret, bind.
  destruct (rename_ok env _ _); reflexivity.
Qed.

(** The run after the sequencer returned two images or more, when the
    engine succeeds. *)
Lemma create_slideshow_many (env : Env) (o : options num)
    (img1 img2 : string) (more : list string) (f_in f_out : string) :
  get_image_file_list env (images_dir o) (order_file o)
    = Ok (img1 :: img2 :: more) ->
  build_ken_burns_filter (duration_per_image o) (fps o) one (zoom_factor o)
    (border_size o) (border_color o) (slideshow_width o) (slideshow_height o)
    = Ok f_in ->
  build_ken_burns_filter (duration_per_image o) (fps o) (zoom_factor o) one
    (border_size o) (border_color o) (slideshow_width o) (slideshow_height o)
    = Ok f_out ->
  (forall cmd, exit_ok env cmd = true) ->
  exists merge,
    create_slideshow env o
    = (TempDirCreated (mkdtemp env)
         :: render_calls (mkdtemp env) (duration_per_image o) (fps o)
                         f_in f_out (img1 :: img2 :: more)
         ++ [ Run merge;
              Print
                [("Slideshow created with alternating zoom-in/out crossfades: "
                    ++ output_file o)%string];
              TempDirRemoved (mkdtemp env) ],
       Ok tt).
Proof.
  intros Hseq Hin Hout Hok.
  set (images := img1 :: img2 :: more) in *.
  unfold create_slideshow. rewrite Hseq, bind_lift_ok.
  unfold images at 1.
  unfold with_temporary_directory, generate_ken_burns_segments.
  rewrite (segments_loop_ok env (mkdtemp env) (duration_per_image o) (fps o)
             (zoom_factor o) (border_size o) (border_color o)
             (slideshow_width o) (slideshow_height o) f_in f_out Hin Hout
             images Hok).
  cbn [app]. fold (render_calls (mkdtemp env) (duration_per_image o) (fps o)
                                f_in f_out images).
  set (paths := map _ (enumerate_from 0 images)).
  assert (Hlen : List.length paths = S (S (List.length more))).
  { unfold paths. rewrite length_map, length_enumerate_from. reflexivity. }
  unfold bind at 1.
  replace (Z.of_nat (List.length paths) =? 1) with false
    by (symmetry; apply Z.eqb_neq; lia).
  pose proof (build_xfade_filter_plan (duration_per_image o)
                (repeat (duration_per_image o) (S (List.length more)))
                (crossfade_duration o) (crossfade_transition o)
                ltac:(discriminate)) as Hplan.
  rewrite repeat_length in Hplan.
  rewrite Hlen.
  change (repeat (duration_per_image o) (List.length images))
    with (duration_per_image o
            :: repeat (duration_per_image o) (S (List.length more))).
  rewrite Hplan, bind_lift_ok.
  eexists. unfold subprocess_run. rewrite !bind_emit, Hok.
  unfold emit, ret, bind, trace, outcome. cbn [fst snd app].
  rewrite <- app_assoc. reflexivity.
Qed.

(** C7. When the sequencer returns exactly one image and its render call
    succeeds, the run renames the single clip to the output path: the trace
    is the render call and the rename (then the message, when the rename
    succeeds), its only process is the segment render, so there is no merge
    call and no xfade line; for one segment the transition planner itself
    returns the empty filter. *)
Theorem single_segment_is_renamed :
  forall (env : Env) (o : options num) (img f_in : string),
    get_image_file_list env (images_dir o) (order_file o) = Ok [img] ->
    build_ken_burns_filter (duration_per_image o) (fps o) one (zoom_factor o)
      (border_size o) (border_color o) (slideshow_width o) (slideshow_height o)
      = Ok f_in ->
    let clip := segment_path (mkdtemp env) 0 in
    let render := segment_cmd (duration_per_image o) (fps o) img f_in clip in
    exit_ok env render = true ->
    create_slideshow env o
    = (if rename_ok env clip (output_file o) then
         ([ TempDirCreated (mkdtemp env); Run render;
            Rename clip (output_file o);
            Print [("Slideshow created with only one image: "
                      ++ output_file o)%string];
            TempDirRemoved (mkdtemp env) ], Ok tt)
       else
         ([ TempDirCreated (mkdtemp env); Run render;
            Rename clip (output_file o);
            TempDirRemoved (mkdtemp env) ], Raise (OSError clip)))
    /\ filter is_run (trace (create_slideshow env o)) = [Run render]
    /\ build_xfade_filter 1 [duration_per_image o] (crossfade_duration o)
                          (crossfade_transition o) = Ok ("", "[0:v]").
Proof.
  intros env o img f_in Hseq Hin clip render Hexit.
  pose proof (create_slideshow_single env o img f_in Hseq Hin Hexit) as Hrun.
  cbv zeta in Hrun. fold clip in Hrun. fold render in Hrun.
  split; [exact Hrun|]. split; [|reflexivity].
  rewrite Hrun. now destruct (rename_ok env clip (output_file o)).
Qed.

(** C8. When the sequencer returns the empty list, the run prints
    "No images found in" with the directory and returns: nothing is raised,
    no process is started, no file is renamed or written. *)
Theorem no_images_is_a_no_op :
  forall (env : Env) (o : options num),
    get_image_file_list env (images_dir o) (order_file o) = Ok [] ->
    create_slideshow env o
    = ([Print ["No images found in"; images_dir o]], Ok tt).
Proof.
  intros env o Hseq. unfold create_slideshow.
  now rewrite Hseq, bind_lift_ok.
Qed.

(** C2, as the code has it.  [create_slideshow] never compares the crossfade
    duration with the segment durations and has no configuration error:
    whatever [crossfade_duration o] is, with a non-empty image list, filters
    that can be built and engine calls and a rename that succeed, every
    segment is rendered and the run returns normally. *)
Theorem crossfade_duration_is_not_checked :
  forall (env : Env) (o : options num) (images : list string)
         (f_in f_out : string),
    get_image_file_list env (images_dir o) (order_file o) = Ok images ->
    images <> [] ->
    build_ken_burns_filter (duration_per_image o) (fps o) one (zoom_factor o)
      (border_size o) (border_color o) (slideshow_width o) (slideshow_height o)
      = Ok f_in ->
    build_ken_burns_filter (duration_per_image o) (fps o) (zoom_factor o) one
      (border_size o) (border_color o) (slideshow_width o) (slideshow_height o)
      = Ok f_out ->
    (forall cmd, exit_ok env cmd = true) ->
    (forall src dst, rename_ok env src dst = true) ->
    outcome (create_slideshow env o) = Ok tt
    /\ exists rest,
         trace (create_slideshow env o)
         = TempDirCreated (mkdtemp env)
             :: render_calls (mkdtemp env) (duration_per_image o) (fps o)
                             f_in f_out images
             ++ rest.
Proof.
  intros env o images f_in f_out Hseq Hne Hin Hout Hok Hren.
  destruct images as [|img1 [|img2 more]]; [congruence| |].
  - rewrite (create_slideshow_single env o img1 f_in Hseq Hin (Hok _)).
    cbv zeta. rewrite Hren. split; [reflexivity|].
    eexists. reflexivity.
  - destruct (create_slideshow_many env o img1 img2 more f_in f_out
                Hseq Hin Hout Hok) as [merge Hrun].
    rewrite Hrun. split; [reflexivity|].
    eexists. reflexivity.
Qed.

End CreateSlideshowFacts.

(** ** Runs on the concrete inputs *)

Lemma zoom_in_built :
  build_ken_burns_filter 3%float 25 1%float 1.25%float 0 "black" 1920 1080
  = Ok Examples.zoom_in_filter.
Proof. reflexivity. Defined.

Lemma zoom_out_built :
  build_ken_burns_filter 3%float 25 1.25%float 1%float 0 "black" 1920 1080
  = Ok Examples.zoom_out_filter.
Proof. reflexivity. Defined.

(** Two photographs: the first zooms in, the second zooms out. *)
Lemma zoom_alternates_two_photos :
  trace (generate_ken_burns_segments Examples.two_photos
           ["imgs/a.jpg"; "imgs/b.jpg"] "/tmp/tmpk3" 3%float 25 1.25%float
           0 "black" 1920 1080)
  = [ Run (Examples.render_of "imgs/a.jpg" Examples.zoom_in_filter
                          "/tmp/tmpk3/segment_000.mp4");
      Run (Examples.render_of "imgs/b.jpg" Examples.zoom_out_filter
                          "/tmp/tmpk3/segment_001.mp4") ].
Proof.
  destruct (zoom_alternates_by_parity Examples.two_photos
              ["imgs/a.jpg"; "imgs/b.jpg"] "/tmp/tmpk3" 3%float 25 1.25%float
              0 "black" 1920 1080 Examples.zoom_in_filter Examples.zoom_out_filter
              zoom_in_built zoom_out_built)
    as (_ & _ & _ & _ & Hall).
  rewrite Hall.
  - reflexivity.
  - intros cmd. reflexivity.
Defined.

(** One photograph: the clip is renamed to the output. *)
Lemma single_photo_is_renamed :
  create_slideshow Examples.one_photo Examples.defaults
  = ([ TempDirCreated "/tmp/tmpk3";
       Run (Examples.render_of "imgs/a.png" Examples.zoom_in_filter
                           "/tmp/tmpk3/segment_000.mp4");
       Rename "/tmp/tmpk3/segment_000.mp4" "slideshow.mp4";
       Print ["Slideshow created with only one image: slideshow.mp4"];
       TempDirRemoved "/tmp/tmpk3" ], Ok tt).
Proof.
  destruct (single_segment_is_renamed Examples.one_photo Examples.defaults
              "imgs/a.png" Examples.zoom_in_filter eq_refl zoom_in_built
              eq_refl)
    as (Hrun & _).
  rewrite Hrun. reflexivity.
Defined.

(** No photograph: the run only prints its message. *)
Lemma empty_directory_is_a_no_op :
  get_image_file_list Examples.no_photos "imgs" None = Ok []
  /\ create_slideshow Examples.no_photos Examples.defaults
     = ([Print ["No images found in"; "imgs"]], Ok tt).
Proof.
  split.
  - reflexivity.
  - exact (no_images_is_a_no_op Examples.no_photos Examples.defaults eq_refl).
Defined.

(** A crossfade of 5.0 s over segments of 3.0 s is rendered all the same. *)
Lemma long_crossfade_returns_normally :
  outcome (create_slideshow Examples.two_photos Examples.long_crossfade)
  = Ok tt.
Proof.
  assert (Hne : ["imgs/a.jpg"; "imgs/b.jpg"] <> []) by discriminate.
  exact (proj1 (crossfade_duration_is_not_checked Examples.two_photos
                  Examples.long_crossfade ["imgs/a.jpg"; "imgs/b.jpg"]
                  Examples.zoom_in_filter Examples.zoom_out_filter
                  eq_refl Hne zoom_in_built zoom_out_built
                  (fun _ => eq_refl) (fun _ _ => eq_refl))).
Defined.

(** C2 fails on the code: with a crossfade duration (5.0) above the duration
    of every segment (3.0), the run is not rejected; both segments are
    rendered and merged, with the offset -2.0 in the merge filter. *)
Lemma long_crossfade_is_not_rejected :
  PrimFloat.leb (duration_per_image Examples.long_crossfade)
                (crossfade_duration Examples.long_crossfade) = true
  /\ ~ rejected_before_rendering
         (create_slideshow Examples.two_photos Examples.long_crossfade)
  /\ create_slideshow Examples.two_photos Examples.long_crossfade
     = ([ TempDirCreated "/tmp/tmpk3";
          Run (Examples.render_of "imgs/a.jpg" Examples.zoom_in_filter
                              "/tmp/tmpk3/segment_000.mp4");
          Run (Examples.render_of "imgs/b.jpg" Examples.zoom_out_filter
                              "/tmp/tmpk3/segment_001.mp4");
          Run [ "ffmpeg"; "-y";
                "-i"; "/tmp/tmpk3/segment_000.mp4";
                "-i"; "/tmp/tmpk3/segment_001.mp4";
                "-filter_complex";
                "[0:v][1:v] xfade=transition=fade:duration=5.0:offset=-2.0[v1]";
                "-map"; "[v1]"; "-c:v"; "libx264"; "-pix_fmt"; "yuv420p";
                "slideshow.mp4" ];
          Print ["Slideshow created with alternating zoom-in/out crossfades: slideshow.mp4"];
          TempDirRemoved "/tmp/tmpk3" ], Ok tt).
Proof.
  split; [reflexivity|]. split.
  - intros [[e He] _]. vm_compute in He. discriminate.
  - reflexivity.
Qed.

(** ** Ordering of datetimes *)

Ltac dt_bools :=
  repeat match goal with
  | d : datetime |- _ => destruct d
  end;
  unfold dt_ltb, dt_eqb in *; cbn [year month day hour minute second
                                   microsecond] in *;
  repeat match goal with
  | |- _ = false => apply not_true_iff_false; intro
  | H : _ = false |- _ => apply not_true_iff_false in H
  end;
  rewrite ?orb_true_iff, ?andb_true_iff, ?Z.ltb_lt, ?Z.eqb_eq in *.

Lemma dt_ltb_asym (a b : datetime) : dt_ltb a b = true -> dt_ltb b a = false.
Proof. intros Hab. dt_bools. lia. Qed.

Lemma dt_not_ltb_trans (a b c : datetime) :
  dt_ltb b a = false -> dt_ltb c b = false -> dt_ltb c a = false.
Proof. intros Hba Hcb. dt_bools. lia. Qed.

Lemma dt_ltb_not_eqb (x y t : datetime) :
  dt_ltb y x = true -> dt_eqb x t = true -> dt_eqb y t = false.
Proof. intros Hyx Hxt. dt_bools. lia. Qed.

(** ** The stable sort *)

Lemma insert_keyed_perm (x : datetime * string) (l : list (datetime * string)) :
  Permutation (x :: l) (insert_keyed x l).
Proof.
  induction l as [|y l IH]; simpl.
  - apply Permutation_refl.
  - destruct (dt_ltb (fst y) (fst x)).
    + apply perm_trans with (y :: x :: l).
      * apply perm_swap.
      * now apply perm_skip.
    + apply Permutation_refl.
Qed.

Lemma sort_keyed_perm (l : list (datetime * string)) :
  Permutation l (sort_keyed l).
Proof.
  induction l as [|x l IH]; simpl.
  - apply perm_nil.
  - apply perm_trans with (x :: sort_keyed l).
    + now apply perm_skip.
    + apply insert_keyed_perm.
Qed.

Lemma insert_keyed_sorted (x : datetime * string)
    (l : list (datetime * string)) :
  StronglySorted key_le l -> StronglySorted key_le (insert_keyed x l).
Proof.
  induction l as [|y l IH]; intros Hl; simpl.
  - constructor; constructor.
  - inversion Hl as [|? ? Hsorted Hall]; subst.
    destruct (dt_ltb (fst y) (fst x)) eqn:Hyx.
    + constructor; [now apply IH|].
      apply (Permutation_Forall (insert_keyed_perm x l)).
      constructor; [|exact Hall].
      now apply dt_ltb_asym.
    + constructor; [exact Hl|].
      constructor; [exact Hyx|].
      apply Forall_impl with (P := key_le y); [|exact Hall].
      intros z Hyz. unfold key_le in *.
      now apply dt_not_ltb_trans with (b := fst y).
Qed.

Lemma sort_keyed_sorted (l : list (datetime * string)) :
  StronglySorted key_le (sort_keyed l).
Proof.
  induction l as [|x l IH]; simpl.
  - constructor.
  - now apply insert_keyed_sorted.
Qed.

(** An element is inserted in front of those with its key. *)
Lemma insert_keyed_stable (t : datetime) (x : datetime * string)
    (l : list (datetime * string)) :
  filter (has_key t) (insert_keyed x l) = filter (has_key t) (x :: l).
Proof.
  induction l as [|y l IH]; [reflexivity|].
  cbn [insert_keyed].
  destruct (dt_ltb (fst y) (fst x)) eqn:Hyx; [|reflexivity].
  cbn [filter] in *. rewrite IH.
  destruct (has_key t x) eqn:Hx; [|reflexivity].
  unfold has_key in *.
  now rewrite (dt_ltb_not_eqb (fst x) (fst y) t Hyx Hx).
Qed.

Lemma sort_keyed_stable (t : datetime) (l : list (datetime * string)) :
  filter (has_key t) (sort_keyed l) = filter (has_key t) l.
Proof.
  induction l as [|x l IH]; [reflexivity|].
  cbn [sort_keyed]. rewrite insert_keyed_stable.
  cbn [filter]. now rewrite IH.
Qed.

(** ** The sequencer *)

Section SequencerFacts.

Variable env : Env.

Lemma manifest_names_trimmed (lines : list string) :
  manifest_names lines = filter Py.truthy (map Py.strip lines).
Proof.
  unfold manifest_names.
  induction lines as [|line lines IH]; [reflexivity|].
  cbn [filter map]. destruct (Py.truthy (Py.strip line)).
  - cbn [map]. now rewrite IH.
  - exact IH.
Qed.

Lemma filter_all_true {A : Type} (f : A -> bool) (l : list A) :
  Forall (fun x => f x = true) l -> filter f l = l.
Proof.
  induction 1 as [|x l Hx _ IH]; [reflexivity|].
  cbn [filter]. now rewrite Hx, IH.
Qed.

(** With keys [ts], decorating succeeds and pairs every path with its key. *)
Lemma keyed_ok (ts : string -> datetime) (l : list string) :
  (forall p, In p l -> get_exif_datetime env p = Ok (ts p)) ->
  keyed (get_exif_datetime env) l = Ok (map (fun p => (ts p, p)) l).
Proof.
  induction l as [|x l IH]; intros Hts; [reflexivity|].
  cbn [keyed map]. rewrite (Hts x (or_introl eq_refl)).
  cbn [rbind]. rewrite IH; [reflexivity|].
  intros p Hp. apply Hts. now right.
Qed.

Lemma decorated_sorted (ts : string -> datetime)
    (l : list (datetime * string)) :
  Forall (decorated ts) l ->
  StronglySorted key_le l ->
  StronglySorted (fun a b => dt_ltb (ts b) (ts a) = false) (map snd l).
Proof.
  intros Hdec Hsorted.
  induction Hsorted as [|x l Hl IH Hall]; cbn [map].
  - constructor.
  - inversion Hdec as [|? ? Hx Hrest]; subst.
    constructor; [now apply IH|].
    apply Forall_map.
    rewrite Forall_forall in *.
    intros y Hy. specialize (Hall y Hy). specialize (Hrest y Hy).
    unfold key_le, decorated in *. now rewrite <- Hx, <- Hrest.
Qed.

Lemma decorated_filter (ts : string -> datetime) (t : datetime)
    (l : list (datetime * string)) :
  Forall (decorated ts) l ->
  filter (fun p => dt_eqb (ts p) t) (map snd l)
  = map snd (filter (has_key t) l).
Proof.
  induction 1 as [|x l Hx _ IH]; [reflexivity|].
  cbn [map filter]. unfold has_key at 1.
  unfold decorated in Hx. rewrite <- Hx, IH.
  now destruct (dt_eqb (fst x) t).
Qed.

Lemma decorated_map (ts : string -> datetime) (l : list string) :
  Forall (decorated ts) (map (fun p => (ts p, p)) l).
Proof.
  apply Forall_map, Forall_forall. intros p _. reflexivity.
Qed.

Lemma map_snd_decorate (ts : string -> datetime) (l : list string) :
  map snd (map (fun p => (ts p, p)) l) = l.
Proof.
  rewrite map_map. cbn [snd]. apply map_id.
Qed.

(** The sort of the sequencer, when every file has a timestamp. *)
Lemma sort_by_key_spec (ts : string -> datetime) (l : list string) :
  (forall p, In p l -> get_exif_datetime env p = Ok (ts p)) ->
  exists out,
    sort_by_key (get_exif_datetime env) l = Ok out
    /\ Permutation l out
    /\ StronglySorted (fun a b => dt_ltb (ts b) (ts a) = false) out
    /\ (forall t,
          filter (fun p => dt_eqb (ts p) t) out
          = filter (fun p => dt_eqb (ts p) t) l).
Proof.
  intros Hts. unfold sort_by_key. rewrite (keyed_ok ts l Hts).
  cbn [rbind]. eexists. split; [reflexivity|].
  set (dec := map (fun p => (ts p, p)) l).
  assert (Hdec : Forall (decorated ts) (sort_keyed dec)).
  { apply (Permutation_Forall (sort_keyed_perm dec)), decorated_map. }
  split; [|split].
  - rewrite <- (map_snd_decorate ts l) at 1.
    apply Permutation_map, sort_keyed_perm.
  - apply decorated_sorted; [exact Hdec | apply sort_keyed_sorted].
  - intros t. rewrite (decorated_filter ts t _ Hdec), sort_keyed_stable.
    rewrite <- (decorated_filter ts t dec (decorated_map ts l)).
    unfold dec. now rewrite map_snd_decorate.
Qed.

End SequencerFacts.

(** C4. With a manifest that is given, exists and can be read, the
    sequencer returns the lines of the manifest in their order, each
    stripped of surrounding whitespace, blank ones dropped, each joined to
    the images directory, those that do not exist dropped.  Nothing is
    sorted: when every joined path exists the result is the manifest order,
    and the result is the same in any environment with the same manifest and
    the same existing paths, whatever its timestamps, EXIF data and
    directory listing are. *)
Theorem manifest_order_is_kept :
  forall (env : Env) (images_dir f : string) (lines : list string),
    Py.truthy f = true ->
    path_exists env f = true ->
    read_lines env f = Ok lines ->
    let names := filter Py.truthy (map Py.strip lines) in
    let joined := map (Py.path_join images_dir) names in
    get_image_file_list env images_dir (Some f)
      = Ok (filter (path_exists env) joined)
    /\ (Forall (fun p => path_exists env p = true) joined ->
        get_image_file_list env images_dir (Some f) = Ok joined)
    /\ (forall env' : Env,
          (forall p, path_exists env' p = path_exists env p) ->
          read_lines env' f = read_lines env f ->
          get_image_file_list env' images_dir (Some f)
          = get_image_file_list env images_dir (Some f)).
Proof.
  intros env images_dir f lines Hf Hexists Hlines names joined.
  assert (Hrun : forall e : Env,
            (forall p, path_exists e p = path_exists env p) ->
            read_lines e f = read_lines env f ->
            get_image_file_list e images_dir (Some f)
            = Ok (filter (path_exists env) joined)).
  { intros e Hsame Hread. unfold get_image_file_list.
    rewrite Hf, Hsame, Hexists, Hread, Hlines. cbn [andb rbind].
    rewrite manifest_names_trimmed. fold names. fold joined.
    f_equal. apply filter_ext. exact Hsame. }
  assert (Hhere : get_image_file_list env images_dir (Some f)
                  = Ok (filter (path_exists env) joined))
    by (apply Hrun; reflexivity).
  split; [exact Hhere|]. split.
  - intros Hall. rewrite Hhere. f_equal. now apply filter_all_true.
  - intros env' Hsame Hread. rewrite Hhere. now apply Hrun.
Qed.

(** C5. Without a manifest (none given, an empty name, or a file that does
    not exist), when each matched file has a timestamp [ts], the sequencer
    returns the files matched by [*.jpg], [*.jpeg] and [*.png], in an order
    where no file comes before one with a smaller timestamp, and with the
    files of any one timestamp in the order of the enumeration. *)
Theorem files_sorted_by_timestamp_stably :
  forall (env : Env) (images_dir : string) (order_file : option string)
         (ts : string -> datetime),
    manifest_used env order_file = false ->
    (forall p, In p (globbed env images_dir) ->
               get_exif_datetime env p = Ok (ts p)) ->
    globbed env images_dir
      = glob_glob env (Py.path_join images_dir "*.jpg")
          ++ glob_glob env (Py.path_join images_dir "*.jpeg")
          ++ glob_glob env (Py.path_join images_dir "*.png")
    /\ exists out,
         get_image_file_list env images_dir order_file = Ok out
         /\ Permutation (globbed env images_dir) out
         /\ StronglySorted (fun a b => dt_ltb (ts b) (ts a) = false) out
         /\ (forall t,
               filter (fun p => dt_eqb (ts p) t) out
               = filter (fun p => dt_eqb (ts p) t) (globbed env images_dir)).
Proof.
  intros env images_dir order_file ts Hnone Hts.
  split.
  - unfold globbed, exts. cbn [flat_map]. now rewrite app_nil_r.
  - assert (Hsort : get_image_file_list env images_dir order_file
                    = sort_by_key (get_exif_datetime env)
                                  (globbed env images_dir)).
    { unfold get_image_file_list, manifest_used in *.
      destruct order_file as [f|]; [|reflexivity].
      now rewrite Hnone. }
    rewrite Hsort. now apply sort_by_key_spec.
Qed.

(** The loop over the EXIF items stops at the first item whose tag is one of
    the two names, in the iteration order of the dictionary. *)
Lemma exif_loop_first_date_tag (env : Env) (items : list (Z * exif_value)) :
  exif_loop env items
  = match find (fun item => is_datetime_tag (fst item)) items with
    | None => FellThrough
    | Some (_, ExifStr s) =>
        match strptime env s "%Y:%m:%d %H:%M:%S" with
        | Some d => Returned d
        | None => Excepted
        end
    | Some (_, ExifOther) => Excepted
    end.
Proof.
  induction items as [|[tag_id value] items IH]; [reflexivity|].
  cbn [exif_loop find fst]. now destruct (is_datetime_tag tag_id).
Qed.

(** Without a usable date tag the result is the modification time. *)
Lemma get_exif_datetime_fallback (env : Env) (image_path : string) :
  exif_try env image_path = Excepted \/ exif_try env image_path = FellThrough ->
  get_exif_datetime env image_path = mtime env image_path.
Proof.
  unfold get_exif_datetime. now intros [-> | ->].
Qed.

(** C6 on the code.  A photograph carries both tags, DateTime (306) listed
    before DateTimeOriginal (36867) as PIL lists them, and both parse:
    [get_exif_datetime] returns the DateTime value, not the DateTimeOriginal
    one. *)
Theorem datetime_tag_shadows_original :
  getexif Examples.both_tags "imgs/a.jpg"
    = ExifReturns (Some [ (271, ExifStr "ACME");
                          (306, ExifStr "2021:02:03 18:45:10");
                          (36867, ExifStr "2019:07:14 09:30:00") ])
  /\ TAGS 36867 = Some "DateTimeOriginal"
  /\ TAGS 306 = Some "DateTime"
  /\ strptime Examples.both_tags "2019:07:14 09:30:00" "%Y:%m:%d %H:%M:%S"
     = Some Examples.taken
  /\ strptime Examples.both_tags "2021:02:03 18:45:10" "%Y:%m:%d %H:%M:%S"
     = Some Examples.edited
  /\ get_exif_datetime Examples.both_tags "imgs/a.jpg" = Ok Examples.edited
  /\ Examples.edited <> Examples.taken.
Proof.
  repeat split; try reflexivity. discriminate.
Qed.

(** The manifest of the example: order kept, the blank line and the missing
    file dropped, although [a.jpg] is older than [z.jpg]. *)
Lemma manifest_order_example :
  get_image_file_list Examples.with_manifest "imgs" (Some "order.txt")
  = Ok ["imgs/z.jpg"; "imgs/a.jpg"].
Proof.
  destruct (manifest_order_is_kept Examples.with_manifest "imgs" "order.txt"
              [ "  z.jpg " ++ String "010" ""; String "010" "";
                "gone.jpg" ++ String "010" ""; "a.jpg" ]%string
              eq_refl eq_refl eq_refl) as (Hrun & _).
  rewrite Hrun. reflexivity.
Defined.

Lemma tied_photos_timestamps :
  forall p, In p (globbed Examples.tied_photos "imgs") ->
            get_exif_datetime Examples.tied_photos p
            = Ok (Examples.tied_times p).
Proof.
  intros p Hp. vm_compute in Hp.
  destruct Hp as [<- | [<- | [<- | [<- | []]]]]; reflexivity.
Defined.

(** Four files, two of them with the same timestamp: those two keep their
    enumeration order. *)
Lemma tied_photos_sorted :
  get_image_file_list Examples.tied_photos "imgs" None
    = Ok ["imgs/d.png"; "imgs/b.jpg"; "imgs/c.jpg"; "imgs/a.jpg"]
  /\ exists out,
       get_image_file_list Examples.tied_photos "imgs" None = Ok out
       /\ Permutation (globbed Examples.tied_photos "imgs") out
       /\ StronglySorted
            (fun a b => dt_ltb (Examples.tied_times b) (Examples.tied_times a)
                        = false) out
       /\ (forall t,
             filter (fun p => dt_eqb (Examples.tied_times p) t) out
             = filter (fun p => dt_eqb (Examples.tied_times p) t)
                      (globbed Examples.tied_photos "imgs")).
Proof.
  split.
  - reflexivity.
  - exact (proj2 (files_sorted_by_timestamp_stably Examples.tied_photos "imgs"
                    None Examples.tied_times eq_refl tied_photos_timestamps)).
Defined.

(** ** The built-ins and the planner on small inputs *)

Example str_int_examples :
  Py.str_int 0 = "0" /\ Py.str_int 1920 = "1920" /\ Py.str_int (-7) = "-7".
Proof. repeat split. Qed.

Example fmt_03d_examples :
  Py.fmt_03d 0 = "000" /\ Py.fmt_03d 12 = "012" /\ Py.fmt_03d 1000 = "1000".
Proof. repeat split. Qed.

Example strip_examples :
  Py.strip ("  z.jpg " ++ String "010" "") = "z.jpg"
  /\ Py.strip (String "010" "") = ""
  /\ Py.strip "a b" = "a b".
Proof. repeat split. Qed.

Example path_join_examples :
  Py.path_join "imgs" "a.jpg" = "imgs/a.jpg"
  /\ Py.path_join "imgs/" "a.jpg" = "imgs/a.jpg"
  /\ Py.path_join "" "a.jpg" = "a.jpg"
  /\ Py.path_join "imgs" "/abs/a.jpg" = "/abs/a.jpg".
Proof. repeat split. Qed.

Example index_examples :
  Py.index [10; 20; 30] 0 = Some 10
  /\ Py.index [10; 20; 30] (-1) = Some 30
  /\ Py.index [10; 20; 30] 3 = None
  /\ Py.index ([] : list Z) 0 = None.
Proof. repeat split. Qed.

(** Five segments of different durations, crossfade 0.5 s: the offsets are
    1.5, 4.5, 8.0 and 10.0 and the merged timeline lasts 13.0 s, the sum of
    the durations minus four overlaps. *)
Example xfade_five_segments :
  build_xfade_filter 5 [2%float; 3.5%float; 4%float; 2.5%float; 3%float]
                     0.5%float "wipeleft"
  = Ok (String.concat "; "
          [ "[0:v][1:v] xfade=transition=wipeleft:duration=0.5:offset=1.5[v1]";
            "[v1][2:v] xfade=transition=wipeleft:duration=0.5:offset=4.5[v2]";
            "[v2][3:v] xfade=transition=wipeleft:duration=0.5:offset=8.0[v3]";
            "[v3][4:v] xfade=transition=wipeleft:duration=0.5:offset=10.0[v4]" ],
        "[v4]")
  /\ running_total 2%float [3.5%float; 4%float; 2.5%float; 3%float]
                   0.5%float 4 = 13%float.
Proof. split; reflexivity. Qed.

(** A count above the number of durations raises IndexError. *)
Example xfade_count_too_large :
  build_xfade_filter 3 [3%float; 3%float] 1%float "fade" = Raise IndexError.
Proof. reflexivity. Qed.

(** A render that fails stops the run; the directory is still removed. *)
Example failed_render_aborts :
  let env := {|
    path_exists := path_exists Examples.two_photos;
    read_lines := read_lines Examples.two_photos;
    glob_glob := glob_glob Examples.two_photos;
    mtime := mtime Examples.two_photos;
    getexif := getexif Examples.two_photos;
    strptime := strptime Examples.two_photos;
    mkdtemp := "/tmp/tmpk3";
    exit_ok := fun _ => false;
    rename_ok := fun _ _ => true |} in
  create_slideshow env Examples.defaults
  = ([ TempDirCreated "/tmp/tmpk3";
       Run (Examples.render_of "imgs/a.jpg" Examples.zoom_in_filter
                               "/tmp/tmpk3/segment_000.mp4");
       TempDirRemoved "/tmp/tmpk3" ],
     Raise (CalledProcessError
              (Examples.render_of "imgs/a.jpg" Examples.zoom_in_filter
                                  "/tmp/tmpk3/segment_000.mp4"))).
Proof. reflexivity. Qed.

(** * Further properties *)

(** ** The planner on counts that differ from the list *)

Lemma index_past_end {A : Type} (l : list A) (k : nat) :
  (List.length l <= k)%nat -> Py.index l (Z.of_nat k) = None.
Proof.
  intros Hk. unfold Py.index.
  replace (Z.of_nat k <? Z.of_nat (List.length l)) with false
    by (symmetry; apply Z.ltb_ge; lia).
  replace (Z.of_nat k <? 0) with false by (symmetry; apply Z.ltb_ge; lia).
  now rewrite !andb_false_r.
Qed.

Section XFadeBounds.

Context {num : Type} `{PyFloat num}.

(** A loop that has to read past the end of the list raises, whatever its
    state is. *)
Lemma xfade_loop_overrun (d0 : num) (rest : list num) (c : num) (tr : string)
    (n : nat) :
  forall (k : nat) (lines : list string) (label : string) (total : num),
    (k <= List.length rest)%nat ->
    (List.length rest < k + n)%nat ->
    xfade_loop n (Z.of_nat (S k)) (d0 :: rest) c tr lines label total
    = Raise IndexError.
Proof.
  induction n as [|n IH]; intros k lines label total Hk Hn; [lia|].
  cbn [xfade_loop].
  destruct (Nat.eq_dec k (List.length rest)) as [-> | Hlt].
  - rewrite index_past_end by (simpl List.length; lia). reflexivity.
  - destruct (index_in_range rest k) as [d Hd]; [lia|].
    rewrite (index_tail d0 d rest k Hd).
    replace (Z.of_nat (S k) + 1) with (Z.of_nat (S (S k))) by lia.
    apply IH; lia.
Qed.

(** The plan for a count that does not exceed the list. *)
Lemma build_xfade_filter_prefix (d0 : num) (rest : list num) (c : num)
    (tr : string) (m : nat) :
  (1 <= m <= List.length rest)%nat ->
  build_xfade_filter (Z.of_nat (S m)) (d0 :: rest) c tr
  = Ok (String.concat "; " (map (step_line d0 rest c tr) (seq 1 m)),
        step_label m).
Proof.
  intros [Hone Hm]. unfold build_xfade_filter, xfade_lines.
  replace (Z.of_nat (S m) <=? 1) with false
    by (symmetry; apply Z.leb_gt; lia).
  rewrite index_head.
  replace (Z.to_nat (Z.of_nat (S m) - 1)) with m by lia.
  now rewrite (xfade_loop_steps d0 rest c tr m 0 Hm).
Qed.

(** X10. With two segments or more, [build_xfade_filter] returns a filter when
    [segment_count] is at most the number of durations, its final label
    being [[v(segment_count - 1)]], and raises IndexError when
    [segment_count] exceeds it. *)
Theorem build_xfade_filter_count_bound :
  forall (segment_count : Z) (segment_lengths : list num) (c : num)
         (tr : string),
    2 <= segment_count ->
    (segment_count <= Z.of_nat (List.length segment_lengths) ->
     exists filter_str,
       build_xfade_filter segment_count segment_lengths c tr
       = Ok (filter_str, out_label (segment_count - 1)))
    /\ (Z.of_nat (List.length segment_lengths) < segment_count ->
        build_xfade_filter segment_count segment_lengths c tr
        = Raise IndexError).
Proof.
  intros segment_count segment_lengths c tr Htwo.
  split.
  - intros Hle. destruct segment_lengths as [|d0 rest];
      [simpl List.length in Hle; lia|].
    simpl List.length in Hle.
    destruct (Z.to_nat (segment_count - 1)) as [|m] eqn:E; [lia|].
    assert (Hcount : segment_count = Z.of_nat (S (S m))) by lia.
    subst segment_count.
    rewrite build_xfade_filter_prefix by lia.
    eexists. f_equal. f_equal.
    unfold step_label. f_equal. lia.
  - intros Hgt. unfold build_xfade_filter, xfade_lines.
    replace (segment_count <=? 1) with false
      by (symmetry; apply Z.leb_gt; lia).
    destruct segment_lengths as [|d0 rest].
    + reflexivity.
    + rewrite index_head.
      assert (Hover :
        xfade_loop (Z.to_nat (segment_count - 1)) (Z.of_nat 1) (d0 :: rest)
                   c tr [] "[0:v]" d0 = Raise IndexError)
        by (apply xfade_loop_overrun; [lia | simpl List.length in Hgt; lia]).
      change (Z.of_nat 1) with 1 in Hover. now rewrite Hover.
Qed.

Lemma running_total_firstn (d0 : num) (rest : list num) (c : num)
    (k m : nat) :
  (k <= m)%nat ->
  running_total d0 (firstn m rest) c k = running_total d0 rest c k.
Proof.
  intros Hk. unfold running_total.
  now rewrite firstn_firstn, Nat.min_l.
Qed.

(** X11. For [segment_count >= 2] and two lists that both hold at least
    [segment_count] durations and agree on their first [segment_count - 1]
    entries, [build_xfade_filter] returns the same result: the duration at
    index [segment_count - 1] is read by the loop and enters no offset.
    (A list shorter than [segment_count] raises IndexError instead, so the
    two length conditions are needed.) *)
Theorem build_xfade_filter_ignores_last_duration :
  forall (segment_count : Z) (lengths lengths' : list num) (c : num)
         (tr : string),
    2 <= segment_count ->
    segment_count <= Z.of_nat (List.length lengths) ->
    segment_count <= Z.of_nat (List.length lengths') ->
    firstn (Z.to_nat (segment_count - 1)) lengths
      = firstn (Z.to_nat (segment_count - 1)) lengths' ->
    build_xfade_filter segment_count lengths c tr
    = build_xfade_filter segment_count lengths' c tr.
Proof.
  intros segment_count lengths lengths' c tr Htwo Hlen Hlen' Hsame.
  destruct lengths as [|d0 rest]; [simpl List.length in Hlen; lia|].
  destruct lengths' as [|d0' rest']; [simpl List.length in Hlen'; lia|].
  simpl List.length in Hlen, Hlen'.
  destruct (Z.to_nat (segment_count - 1)) as [|m] eqn:E; [lia|].
  cbn [firstn] in Hsame. injection Hsame as <- Hrest.
  replace segment_count with (Z.of_nat (S (S m))) by lia.
  rewrite !build_xfade_filter_prefix by lia.
  do 3 f_equal.
  apply map_ext_in. intros i Hi. apply in_seq in Hi.
  unfold step_line, step_offset.
  rewrite <- (running_total_firstn d0 rest c (i - 1) m) by lia.
  rewrite <- (running_total_firstn d0 rest' c (i - 1) m) by lia.
  now rewrite Hrest.
Qed.

End XFadeBounds.

Lemma xfade_count_bound_example :
  build_xfade_filter 3 [3%float; 3%float] 1%float "fade" = Raise IndexError
  /\ exists filter_str,
       build_xfade_filter 2 [3%float; 3%float; 7%float] 1%float "fade"
       = Ok (filter_str, "[v1]").
Proof.
  split.
  - apply (build_xfade_filter_count_bound 3 [3%float; 3%float] 1%float "fade");
      [lia | simpl List.length; lia].
  - apply (build_xfade_filter_count_bound 2 [3%float; 3%float; 7%float]
             1%float "fade"); [lia | simpl List.length; lia].
Defined.

Lemma xfade_last_duration_example :
  build_xfade_filter 3 [3%float; 2%float; 9%float] 1%float "fade"
  = build_xfade_filter 3 [3%float; 2%float; 0.5%float] 1%float "fade".
Proof.
  apply build_xfade_filter_ignores_last_duration;
    [lia | simpl List.length; lia | simpl List.length; lia | reflexivity].
Defined.

(** ** The segment renderer: results and failures *)

Lemma enumerate_from_app {A : Type} (l1 l2 : list A) :
  forall i,
    enumerate_from i (l1 ++ l2)
    = enumerate_from i l1 ++ enumerate_from (i + Z.of_nat (List.length l1)) l2.
Proof.
  induction l1 as [|x l1 IH]; intros i.
  - simpl. now rewrite Z.add_0_r.
  - cbn [app enumerate_from List.length]. rewrite IH.
    now replace (i + 1 + Z.of_nat (List.length l1))
      with (i + Z.of_nat (S (List.length l1))) by lia.
Qed.

Lemma enumerate_from_index {A : Type} (l : list A) :
  forall i entry,
    In entry (enumerate_from i l) ->
    i <= fst entry < i + Z.of_nat (List.length l).
Proof.
  induction l as [|x l IH]; intros i entry Hin; [contradiction|].
  cbn [enumerate_from List.length] in *. destruct Hin as [<- | Hin].
  - simpl fst. lia.
  - apply IH in Hin. lia.
Qed.

Section SegmentResults.

Context {num : Type} `{PyFloat num}.

Variable env : Env.
Variables (tmp_dir : string) (duration : num) (fps : Z) (zoom_factor : num).
Variables (b : Z) (color : string) (w h : Z).
Variables f_in f_out : string.

Hypothesis filter_in :
  build_ken_burns_filter duration fps one zoom_factor b color w h = Ok f_in.
Hypothesis filter_out :
  build_ken_burns_filter duration fps zoom_factor one b color w h = Ok f_out.

Lemma render_call_cmd (entry : Z * string) :
  render_call tmp_dir duration fps f_in f_out entry
  = Run (render_cmd tmp_dir duration fps f_in f_out entry).
Proof. now destruct entry. Qed.

(** The loop when the renders of its images succeed. *)
Lemma segments_loop_succeeds (images : list string) :
  forall (i : Z) (segment_paths : list string) (segment_lengths : list num),
    (forall entry,
       In entry (enumerate_from i images) ->
       exit_ok env (render_cmd tmp_dir duration fps f_in f_out entry) = true) ->
    segments_loop env i images tmp_dir duration fps zoom_factor b color w h
                  segment_paths segment_lengths
    = (map (render_call tmp_dir duration fps f_in f_out)
           (enumerate_from i images),
       Ok (segment_paths
             ++ map (fun entry => segment_path tmp_dir (fst entry))
                    (enumerate_from i images),
           segment_lengths ++ repeat duration (List.length images))).
Proof.
  induction images as [|img rest IH];
    intros i segment_paths segment_lengths Hok.
  - simpl. now rewrite !app_nil_r.
  - rewrite (segments_loop_step env tmp_dir duration fps zoom_factor b color
               w h f_in f_out filter_in filter_out).
    rewrite IH by (intros entry Hin; apply Hok; now right).
    unfold subprocess_run, emit, bind, ret.
    specialize (Hok (i, img) (or_introl eq_refl)).
    unfold render_cmd in Hok. cbn [fst snd] in Hok. rewrite Hok.
    simpl. now rewrite <- !app_assoc.
Qed.

(** The loop when the render of [img] is the first to fail. *)
Lemma segments_loop_fails (before : list string) (img : string)
    (after : list string) :
  forall (i : Z) (segment_paths : list string) (segment_lengths : list num),
    (forall entry,
       In entry (enumerate_from i before) ->
       exit_ok env (render_cmd tmp_dir duration fps f_in f_out entry) = true) ->
    exit_ok env (render_cmd tmp_dir duration fps f_in f_out
                   (i + Z.of_nat (List.length before), img)) = false ->
    segments_loop env i (before ++ img :: after) tmp_dir duration fps
                  zoom_factor b color w h segment_paths segment_lengths
    = (map (render_call tmp_dir duration fps f_in f_out)
           (enumerate_from i (before ++ [img])),
       Raise (CalledProcessError
                (render_cmd tmp_dir duration fps f_in f_out
                   (i + Z.of_nat (List.length before), img)))).
Proof.
  induction before as [|x before IH];
    intros i segment_paths segment_lengths Hok Hfail.
  - cbn [app List.length Z.of_nat] in *. rewrite Z.add_0_r in *.
    rewrite (segments_loop_step env tmp_dir duration fps zoom_factor b color
               w h f_in f_out filter_in filter_out).
    unfold subprocess_run, emit, bind, raise.
    unfold render_cmd in Hfail. cbn [fst snd] in Hfail. rewrite Hfail.
    reflexivity.
  - cbn [app].
    rewrite (segments_loop_step env tmp_dir duration fps zoom_factor b color
               w h f_in f_out filter_in filter_out).
    replace (i + Z.of_nat (List.length (x :: before)))
      with (i + 1 + Z.of_nat (List.length before)) in *
      by (cbn [List.length]; lia).
    rewrite IH; [| intros entry Hin; apply Hok; now right | exact Hfail].
    unfold subprocess_run, emit, bind, ret.
    specialize (Hok (i, x) (or_introl eq_refl)).
    unfold render_cmd in Hok. cbn [fst snd] in Hok. rewrite Hok.
    reflexivity.
Qed.

End SegmentResults.

Section SegmentClaims.

Context {num : Type} `{PyFloat num}.

(** X7. When every render succeeds, [generate_ken_burns_segments] returns one
    clip path and one length per image, in the order of the images: the
    paths are [segment_000.mp4], [segment_001.mp4], ... in the temporary
    directory, and every length is the nominal duration. *)
Theorem generate_returns_clips_and_nominal_lengths :
  forall (env : Env) (images : list string) (tmp_dir : string)
         (duration : num) (fps : Z) (zoom_factor : num) (b : Z)
         (color : string) (w h : Z) (f_in f_out : string),
    build_ken_burns_filter duration fps one zoom_factor b color w h
      = Ok f_in ->
    build_ken_burns_filter duration fps zoom_factor one b color w h
      = Ok f_out ->
    (forall entry,
       In entry (enumerate_from 0 images) ->
       exit_ok env (render_cmd tmp_dir duration fps f_in f_out entry) = true) ->
    exists segment_paths segment_lengths,
      outcome (generate_ken_burns_segments env images tmp_dir duration fps
                 zoom_factor b color w h)
      = Ok (segment_paths, segment_lengths)
      /\ segment_paths
         = map (fun k =>
                  Py.path_join tmp_dir
                    ("segment_" ++ Py.fmt_03d (Z.of_nat k) ++ ".mp4"))
               (seq 0 (List.length images))
      /\ segment_lengths = repeat duration (List.length images)
      /\ List.length segment_paths = List.length images
      /\ List.length segment_lengths = List.length images.
Proof.
  intros env images tmp_dir duration fps zoom_factor b color w h f_in f_out
         Hin Hout Hok.
  unfold generate_ken_burns_segments.
  rewrite (segments_loop_succeeds env tmp_dir duration fps zoom_factor b
             color w h f_in f_out Hin Hout images 0 [] [] Hok).
  do 2 eexists. split; [reflexivity|].
  assert (Hpaths : forall (l : list string) (i : nat),
            map (fun entry => segment_path tmp_dir (fst entry))
                (enumerate_from (Z.of_nat i) l)
            = map (fun k =>
                     Py.path_join tmp_dir
                       ("segment_" ++ Py.fmt_03d (Z.of_nat k) ++ ".mp4"))
                  (seq i (List.length l))).
  { induction l as [|x l IH]; intros i; [reflexivity|].
    cbn [enumerate_from map List.length seq fst].
    replace (Z.of_nat i + 1) with (Z.of_nat (S i)) by lia.
    now rewrite IH. }
  cbn [app]. specialize (Hpaths images 0%nat).
  change (Z.of_nat 0) with 0 in Hpaths. rewrite Hpaths.
  repeat split.
  - now rewrite length_map, length_seq.
  - apply repeat_length.
Qed.

(** X8. The loop stops at the first render that fails: the images before it
    were rendered, the failing call is the last event, no later image is
    touched, and the exception carries the failing command. *)
Theorem generate_stops_at_first_failure :
  forall (env : Env) (before : list string) (img : string)
         (after : list string) (tmp_dir : string)
         (duration : num) (fps : Z) (zoom_factor : num) (b : Z)
         (color : string) (w h : Z) (f_in f_out : string),
    build_ken_burns_filter duration fps one zoom_factor b color w h
      = Ok f_in ->
    build_ken_burns_filter duration fps zoom_factor one b color w h
      = Ok f_out ->
    (forall entry,
       In entry (enumerate_from 0 before) ->
       exit_ok env (render_cmd tmp_dir duration fps f_in f_out entry) = true) ->
    let failing :=
      render_cmd tmp_dir duration fps f_in f_out
                 (Z.of_nat (List.length before), img) in
    exit_ok env failing = false ->
    generate_ken_burns_segments env (before ++ img :: after) tmp_dir duration
      fps zoom_factor b color w h
    = (render_calls tmp_dir duration fps f_in f_out before ++ [Run failing],
       Raise (CalledProcessError failing)).
Proof.
  intros env before img after tmp_dir duration fps zoom_factor b color w h
         f_in f_out Hin Hout Hok failing Hfail.
  unfold generate_ken_burns_segments.
  rewrite (segments_loop_fails env tmp_dir duration fps zoom_factor b color
             w h f_in f_out Hin Hout before img after 0 [] [] Hok Hfail).
  rewrite enumerate_from_app, map_app. reflexivity.
Qed.

(** A frame count that cannot be computed stops the loop at its first
    image, before any render call; with no image nothing is computed and the
    result is a pair of empty lists. *)
Theorem generate_frame_count_error :
  forall (env : Env) (images : list string) (tmp_dir : string)
         (duration : num) (fps : Z) (zoom_factor : num) (b : Z)
         (color : string) (w h : Z) (e : exn),
    total_frames duration fps = Raise e ->
    generate_ken_burns_segments env images tmp_dir duration fps zoom_factor
      b color w h
    = match images with
      | [] => ([], Ok ([], []))
      | _ :: _ => ([], Raise e)
      end.
Proof.
  intros env images tmp_dir duration fps zoom_factor b color w h e Hframes.
  unfold generate_ken_burns_segments.
  destruct images as [|img rest]; [reflexivity|].
  cbn [segments_loop]. unfold build_ken_burns_filter. rewrite Hframes.
  now destruct (zoom_range 0 zoom_factor).
Qed.

End SegmentClaims.

(** ** The composer: merge and failures *)

Section ComposerResults.

Context {num : Type} `{PyFloat num}.

(** The run once the sequencer has returned a non-empty list. *)
Lemma create_slideshow_nonempty (env : Env) (o : options num)
    (images : list string) :
  get_image_file_list env (images_dir o) (order_file o) = Ok images ->
  images <> [] ->
  create_slideshow env o
  = with_temporary_directory env (fun tmp_dir =>
      ' (segment_paths, segment_lengths) <-
        generate_ken_burns_segments env images tmp_dir
          (duration_per_image o) (fps o) (zoom_factor o) (border_size o)
          (border_color o) (slideshow_width o) (slideshow_height o) ;;
      if Z.of_nat (List.length segment_paths) =? 1 then
        seg <- lift (match Py.index segment_paths 0 with
                     | Some p => Ok p
                     | None => Raise IndexError
                     end) ;;
        os_rename env seg (output_file o) ;;
        emit (Print [("Slideshow created with only one image: "
                        ++ output_file o)%string])
      else
        ' (xfade_filter_str, final_label) <-
          lift (build_xfade_filter (Z.of_nat (List.length segment_paths))
                  segment_lengths (crossfade_duration o)
                  (crossfade_transition o)) ;;
        subprocess_run env
          (merge_cmd segment_paths xfade_filter_str final_label
                     (output_file o)) ;;
        emit (Print
          [("Slideshow created with alternating zoom-in/out crossfades: "
              ++ output_file o)%string])).
Proof.
  intros Hseq Hne. unfold create_slideshow.
  rewrite Hseq, bind_lift_ok.
  destruct images; [congruence | reflexivity].
Qed.

(** The filter of two segments or more is not the empty string. *)
Lemma xfade_plan_truthy (d0 : num) (rest : list num) (c : num) (tr : string)
    (m : nat) :
  Py.truthy (String.concat "; "
               (map (step_line d0 rest c tr) (seq 1 (S m)))) = true.
Proof.
  cbn [seq map String.concat].
  now destruct (map (step_line d0 rest c tr) (seq 2 m)).
Qed.

(** X12. With two images or more whose renders succeed, the run makes one more
    engine call, the merge: its inputs are the clips in order, its filter is
    the one of [build_xfade_filter] for durations all equal to the nominal
    one, which is never empty, so the command always carries
    [-filter_complex] and maps the label [[v(n-1)]]; the stream-copy command
    is never issued.  When the merge fails the run raises its
    CalledProcessError without the final message, and the temporary
    directory is removed either way. *)
Theorem slideshow_merges_with_filter_complex :
  forall (env : Env) (o : options num) (img1 img2 : string)
         (more : list string) (f_in f_out : string),
    let images := img1 :: img2 :: more in
    let tmp_dir := mkdtemp env in
    get_image_file_list env (images_dir o) (order_file o) = Ok images ->
    build_ken_burns_filter (duration_per_image o) (fps o) one (zoom_factor o)
      (border_size o) (border_color o) (slideshow_width o) (slideshow_height o)
      = Ok f_in ->
    build_ken_burns_filter (duration_per_image o) (fps o) (zoom_factor o) one
      (border_size o) (border_color o) (slideshow_width o) (slideshow_height o)
      = Ok f_out ->
    (forall entry,
       In entry (enumerate_from 0 images) ->
       exit_ok env (render_cmd tmp_dir (duration_per_image o) (fps o)
                      f_in f_out entry) = true) ->
    exists filter_str,
      build_xfade_filter (Z.of_nat (List.length images))
        (repeat (duration_per_image o) (List.length images))
        (crossfade_duration o) (crossfade_transition o)
      = Ok (filter_str, out_label (Z.of_nat (List.length images) - 1))
      /\ filter_str <> ""
      /\ let merge :=
           ["ffmpeg"; "-y"]
             ++ flat_map (fun seg_path => ["-i"; seg_path])
                         (clip_paths tmp_dir images)
             ++ [ "-filter_complex"; filter_str;
                  "-map"; out_label (Z.of_nat (List.length images) - 1);
                  "-c:v"; "libx264"; "-pix_fmt"; "yuv420p";
                  output_file o ] in
         let renders :=
           render_calls tmp_dir (duration_per_image o) (fps o) f_in f_out
                        images in
         create_slideshow env o
         = if exit_ok env merge then
             (TempDirCreated tmp_dir
                :: renders
                ++ [ Run merge;
                     Print
                       [("Slideshow created with alternating zoom-in/out crossfades: "
                           ++ output_file o)%string];
                     TempDirRemoved tmp_dir ], Ok tt)
           else
             (TempDirCreated tmp_dir
                :: renders ++ [Run merge; TempDirRemoved tmp_dir],
              Raise (CalledProcessError merge)).
Proof.
  intros env o img1 img2 more f_in f_out images tmp_dir Hseq Hin Hout Hok.
  pose proof (build_xfade_filter_plan (duration_per_image o)
                (repeat (duration_per_image o) (S (List.length more)))
                (crossfade_duration o) (crossfade_transition o)
                ltac:(discriminate)) as Hplan.
  rewrite repeat_length in Hplan.
  change (duration_per_image o
            :: repeat (duration_per_image o) (S (List.length more)))
    with (repeat (duration_per_image o) (List.length images)) in Hplan.
  change (S (S (List.length more))) with (List.length images) in Hplan.
  set (filter_str := String.concat "; " _) in Hplan.
  assert (Htruthy : Py.truthy filter_str = true) by apply xfade_plan_truthy.
  assert (Hlabel : step_label (S (List.length more))
                   = out_label (Z.of_nat (List.length images) - 1)).
  { unfold step_label. f_equal. unfold images. cbn [List.length]. lia. }
  rewrite Hlabel in Hplan.
  exists filter_str. split; [exact Hplan|].
  split; [intros E; rewrite E in Htruthy; discriminate|].
  cbv zeta.
  rewrite (create_slideshow_nonempty env o images Hseq ltac:(discriminate)).
  unfold with_temporary_directory, generate_ken_burns_segments.
  fold tmp_dir.
  rewrite (segments_loop_succeeds env tmp_dir (duration_per_image o) (fps o)
             (zoom_factor o) (border_size o) (border_color o)
             (slideshow_width o) (slideshow_height o) f_in f_out Hin Hout
             images 0 [] [] Hok).
  cbn [app].
  fold (render_calls tmp_dir (duration_per_image o) (fps o) f_in f_out images).
  fold (clip_paths tmp_dir images).
  assert (Hlen : List.length (clip_paths tmp_dir images)
                 = List.length images).
  { unfold clip_paths. now rewrite length_map, length_enumerate_from. }
  unfold bind at 1.
  rewrite Hlen.
  replace (Z.of_nat (List.length images) =? 1) with false
    by (symmetry; apply Z.eqb_neq; unfold images; cbn [List.length]; lia).
  rewrite Hplan, bind_lift_ok.
  unfold merge_cmd. rewrite Htruthy.
  unfold subprocess_run. rewrite bind_emit.
  destruct (exit_ok env _).
  - unfold emit, ret, bind, trace, outcome. cbn [fst snd app].
    rewrite <- !app_assoc. reflexivity.
  - unfold emit, raise, bind, trace, outcome. cbn [fst snd app].
    rewrite <- !app_assoc. reflexivity.
Qed.

(** X13. When the render of an image fails, the run ends there: the earlier
    images were rendered, nothing is renamed or merged, no message is
    printed, the temporary directory is removed and the
    CalledProcessError of the failing command is raised. *)
Theorem slideshow_aborts_on_failed_render :
  forall (env : Env) (o : options num) (before : list string) (img : string)
         (after : list string) (f_in f_out : string),
    let tmp_dir := mkdtemp env in
    get_image_file_list env (images_dir o) (order_file o)
      = Ok (before ++ img :: after) ->
    build_ken_burns_filter (duration_per_image o) (fps o) one (zoom_factor o)
      (border_size o) (border_color o) (slideshow_width o) (slideshow_height o)
      = Ok f_in ->
    build_ken_burns_filter (duration_per_image o) (fps o) (zoom_factor o) one
      (border_size o) (border_color o) (slideshow_width o) (slideshow_height o)
      = Ok f_out ->
    (forall entry,
       In entry (enumerate_from 0 before) ->
       exit_ok env (render_cmd tmp_dir (duration_per_image o) (fps o)
                      f_in f_out entry) = true) ->
    let failing :=
      render_cmd tmp_dir (duration_per_image o) (fps o) f_in f_out
                 (Z.of_nat (List.length before), img) in
    exit_ok env failing = false ->
    create_slideshow env o
    = (TempDirCreated tmp_dir
         :: render_calls tmp_dir (duration_per_image o) (fps o) f_in f_out
                         before
         ++ [Run failing; TempDirRemoved tmp_dir],
       Raise (CalledProcessError failing)).
Proof.
  intros env o before img after f_in f_out tmp_dir Hseq Hin Hout Hok
         failing Hfail.
  rewrite (create_slideshow_nonempty env o _ Hseq)
    by (intros E; apply app_eq_nil in E; destruct E; discriminate).
  unfold with_temporary_directory. fold tmp_dir.
  unfold generate_ken_burns_segments.
  rewrite (segments_loop_fails env tmp_dir (duration_per_image o) (fps o)
             (zoom_factor o) (border_size o) (border_color o)
             (slideshow_width o) (slideshow_height o) f_in f_out Hin Hout
             before img after 0 [] [] Hok Hfail).
  rewrite enumerate_from_app, map_app.
  unfold bind. rewrite <- app_assoc. reflexivity.
Qed.

End ComposerResults.

(** ** Clip names *)

Lemma string_length_app (s t : string) :
  String.length (s ++ t) = (String.length s + String.length t)%nat.
Proof.
  induction s as [|a s IH]; simpl; [reflexivity | now rewrite IH].
Qed.

Lemma string_app_inv_head (s t1 t2 : string) :
  (s ++ t1 = s ++ t2)%string -> t1 = t2.
Proof.
  induction s as [|a s IH]; simpl; intros E; [exact E|].
  injection E as E. now apply IH.
Qed.

Lemma string_app_inv_tail (t : string) :
  forall s1 s2 : string, (s1 ++ t = s2 ++ t)%string -> s1 = s2.
Proof.
  induction s1 as [|a s1 IH]; intros [|b s2] E; simpl in E.
  - reflexivity.
  - apply (f_equal String.length) in E. simpl in E.
    rewrite string_length_app in E. lia.
  - apply (f_equal String.length) in E. simpl in E.
    rewrite string_length_app in E. lia.
  - injection E as -> E. f_equal. now apply IH.
Qed.

Lemma parse_digits_zeros (k : nat) (s : string) :
  parse_digits (Py.zeros k ++ s) = parse_digits s.
Proof.
  unfold parse_digits. induction k as [|k IH]; [reflexivity|].
  cbn [Py.zeros append NilEmpty.uint_of_string].
  rewrite <- IH.
  destruct (NilEmpty.uint_of_string (Py.zeros k ++ s)) as [d|];
    reflexivity.
Qed.

Lemma parse_digits_str_int (z : Z) :
  0 <= z -> parse_digits (Py.str_int z) = Some z.
Proof.
  intros Hz. unfold parse_digits, Py.str_int.
  pose proof (DecimalZ.of_to z) as Hround.
  destruct z as [|p|p]; [reflexivity| |lia].
  cbn [Z.to_int NilZero.string_of_int] in *.
  unfold NilZero.string_of_uint.
  destruct (Pos.to_uint p) as [|d|d|d|d|d|d|d|d|d|d] eqn:E;
    [discriminate Hround | ..];
    rewrite NilEmpty.usu; cbn [option_map]; f_equal; exact Hround.
Qed.

(** The index of a clip can be read back from the digits of its name. *)
Lemma parse_digits_fmt_03d (z : Z) :
  0 <= z -> parse_digits (Py.fmt_03d z) = Some z.
Proof.
  intros Hz. unfold Py.fmt_03d.
  replace (z <? 0) with false by (symmetry; apply Z.ltb_ge; lia).
  unfold Py.zfill. rewrite parse_digits_zeros.
  now apply parse_digits_str_int.
Qed.

Lemma segment_path_shape (tmp_dir : string) :
  exists prefix,
    forall i,
      segment_path tmp_dir i
      = (prefix ++ "segment_" ++ Py.fmt_03d i ++ ".mp4")%string.
Proof.
  unfold segment_path, Py.path_join. cbn [append Py.startswith_sep].
  destruct (negb (Py.truthy tmp_dir) || Py.endswith_sep tmp_dir).
  - exists tmp_dir. reflexivity.
  - exists (tmp_dir ++ "/")%string. intros i.
    induction tmp_dir as [|a t IH]; [reflexivity|].
    cbn [append]. f_equal. exact IH.
Qed.

Lemma segment_path_injective (tmp_dir : string) (i j : Z) :
  0 <= i -> 0 <= j ->
  segment_path tmp_dir i = segment_path tmp_dir j -> i = j.
Proof.
  intros Hi Hj E.
  destruct (segment_path_shape tmp_dir) as [prefix Hshape].
  rewrite !Hshape in E.
  apply string_app_inv_head, string_app_inv_head, string_app_inv_tail in E.
  apply (f_equal parse_digits) in E.
  rewrite !parse_digits_fmt_03d in E by assumption.
  congruence.
Qed.

Lemma enumerate_from_indices_nodup {A : Type} (l : list A) :
  forall i, NoDup (map fst (enumerate_from i l)).
Proof.
  induction l as [|x l IH]; intros i; cbn [enumerate_from map fst].
  - constructor.
  - constructor; [|apply IH].
    intros Hin. apply in_map_iff in Hin. destruct Hin as [entry [Hfst Hin]].
    apply enumerate_from_index in Hin. lia.
Qed.

Lemma clip_paths_nodup (tmp_dir : string) (images : list string) :
  NoDup (clip_paths tmp_dir images).
Proof.
  unfold clip_paths.
  rewrite <- (map_map fst (segment_path tmp_dir)).
  apply NoDup_map_NoDup_ForallPairs; [|apply enumerate_from_indices_nodup].
  intros i j Hi Hj E.
  apply in_map_iff in Hi. destruct Hi as [ei [<- Hi]].
  apply in_map_iff in Hj. destruct Hj as [ej [<- Hj]].
  apply enumerate_from_index in Hi. apply enumerate_from_index in Hj.
  apply (segment_path_injective tmp_dir); [lia | lia | exact E].
Qed.

Section ClipNames.

Context {num : Type} `{PyFloat num}.

(** What the loop has returned when it returns. *)
Lemma segments_loop_returns (env : Env) (tmp_dir : string) (duration : num)
    (fps : Z) (zoom_factor : num) (b : Z) (color : string) (w h : Z)
    (f_in f_out : string) :
  build_ken_burns_filter duration fps one zoom_factor b color w h = Ok f_in ->
  build_ken_burns_filter duration fps zoom_factor one b color w h = Ok f_out ->
  forall (images : list string) (i : Z) (segment_paths : list string)
         (segment_lengths : list num) (t : list event)
         (paths' : list string) (lengths' : list num),
    segments_loop env i images tmp_dir duration fps zoom_factor b color w h
                  segment_paths segment_lengths
    = (t, Ok (paths', lengths')) ->
    paths' = segment_paths
               ++ map (fun entry => segment_path tmp_dir (fst entry))
                      (enumerate_from i images)
    /\ lengths' = segment_lengths ++ repeat duration (List.length images).
Proof.
  intros Hin Hout.
  induction images as [|img rest IH];
    intros i segment_paths segment_lengths t paths' lengths' Hrun.
  - cbn in Hrun. injection Hrun as _ <- <-. now rewrite !app_nil_r.
  - rewrite (segments_loop_step env tmp_dir duration fps zoom_factor b color
               w h f_in f_out Hin Hout) in Hrun.
    unfold subprocess_run, emit, bind, ret, raise in Hrun.
    destruct (exit_ok env _); [|discriminate].
    destruct (segments_loop env (i + 1) rest _ _ _ _ _ _ _ _ _ _)
      as [t' r'] eqn:Hrest.
    injection Hrun as _ ->.
    apply IH in Hrest. destruct Hrest as [-> ->].
    cbn [enumerate_from map fst List.length repeat].
    now rewrite <- !app_assoc.
Qed.

(** X9. Whenever [generate_ken_burns_segments] returns, the clip paths it
    returns are pairwise distinct, one per image, so that no render has
    overwritten the clip of another image, and the lengths are the nominal
    duration, one per image. *)
Theorem generate_returns_distinct_clips :
  forall (env : Env) (images : list string) (tmp_dir : string)
         (duration : num) (fps : Z) (zoom_factor : num) (b : Z)
         (color : string) (w h : Z)
         (segment_paths : list string) (segment_lengths : list num),
    outcome (generate_ken_burns_segments env images tmp_dir duration fps
               zoom_factor b color w h)
      = Ok (segment_paths, segment_lengths) ->
    NoDup segment_paths
    /\ List.length segment_paths = List.length images
    /\ segment_lengths = repeat duration (List.length images).
Proof.
  intros env images tmp_dir duration fps zoom_factor b color w h
         segment_paths segment_lengths Hrun.
  unfold generate_ken_burns_segments, outcome in Hrun.
  destruct (total_frames duration fps) as [frames|e] eqn:Hframes.
  - destruct (build_ken_burns_filter_ok duration fps one zoom_factor b color
                w h frames Hframes) as [f_in Hin].
    destruct (build_ken_burns_filter_ok duration fps zoom_factor one b color
                w h frames Hframes) as [f_out Hout].
    destruct (segments_loop env 0 images _ _ _ _ _ _ _ _ [] [])
      as [t r] eqn:Hloop.
    cbn [snd] in Hrun. subst r.
    apply (segments_loop_returns env tmp_dir duration fps zoom_factor b color
             w h f_in f_out Hin Hout) in Hloop.
    destruct Hloop as [-> ->]. cbn [app].
    fold (clip_paths tmp_dir images).
    split; [apply clip_paths_nodup|]. split; [|reflexivity].
    unfold clip_paths. now rewrite length_map, length_enumerate_from.
  - destruct images as [|img rest].
    + cbn in Hrun. injection Hrun as <- <-.
      repeat split. constructor.
    + cbn [segments_loop] in Hrun.
      unfold build_ken_burns_filter in Hrun. rewrite Hframes in Hrun.
      destruct (zoom_range 0 zoom_factor). discriminate.
Qed.

End ClipNames.

(** ** The sequencer: order and failures *)

Lemma dt_not_ltb_antisym (a b : datetime) :
  dt_ltb a b = false -> dt_ltb b a = false -> a = b.
Proof.
  intros Hab Hba. dt_bools. f_equal; lia.
Qed.

(** A list that is in order is left as it is. *)
Lemma sort_keyed_in_order (l : list (datetime * string)) :
  StronglySorted key_le l -> sort_keyed l = l.
Proof.
  induction 1 as [|x l Hl IH Hall]; [reflexivity|].
  cbn [sort_keyed]. rewrite IH.
  destruct l as [|y l]; [reflexivity|].
  cbn [insert_keyed]. inversion Hall as [|? ? Hxy _]; subst.
  unfold key_le in Hxy. now rewrite Hxy.
Qed.

(** Two ordered lists with the same elements are equal when no two
    elements tie. *)
Lemma sorted_perm_unique {A : Type} (R : A -> A -> Prop) (l1 : list A) :
  forall l2,
    StronglySorted R l1 -> StronglySorted R l2 -> Permutation l1 l2 ->
    (forall a b, In a l1 -> In b l1 -> R a b -> R b a -> a = b) ->
    l1 = l2.
Proof.
  induction l1 as [|a l1 IH]; intros l2 H1 H2 Hperm Hanti.
  - apply Permutation_nil in Hperm. now subst.
  - destruct l2 as [|b l2];
      [apply Permutation_sym, Permutation_nil in Hperm; discriminate|].
    inversion H1 as [|? ? H1' Ha]; subst.
    inversion H2 as [|? ? H2' Hb]; subst.
    assert (Hab : a = b).
    { assert (Hina : In a (b :: l2))
        by (apply (Permutation_in _ Hperm); now left).
      assert (Hinb : In b (a :: l1))
        by (apply (Permutation_in _ (Permutation_sym Hperm)); now left).
      destruct Hina as [-> | Hina]; [reflexivity|].
      destruct Hinb as [-> | Hinb]; [reflexivity|].
      rewrite Forall_forall in Ha, Hb.
      apply Hanti; [now left | now right | now apply Ha | now apply Hb]. }
    subst b. f_equal.
    apply IH; [assumption | assumption | now apply Permutation_cons_inv in Hperm|].
    intros x y Hx Hy. apply Hanti; now right.
Qed.

Lemma keyed_raises (env : Env) (ts : string -> datetime)
    (before : list string) (p : string) (after : list string) (e : exn) :
  (forall q, In q before -> get_exif_datetime env q = Ok (ts q)) ->
  get_exif_datetime env p = Raise e ->
  keyed (get_exif_datetime env) (before ++ p :: after) = Raise e.
Proof.
  intros Hbefore Hp.
  induction before as [|x before IH].
  - cbn [app keyed]. now rewrite Hp.
  - cbn [app keyed]. rewrite (Hbefore x (or_introl eq_refl)).
    cbn [rbind]. rewrite IH; [reflexivity|].
    intros q Hq. apply Hbefore. now right.
Qed.

Lemma sequencer_sorts_when_no_manifest (env : Env) (images_dir : string)
    (order_file : option string) :
  manifest_used env order_file = false ->
  get_image_file_list env images_dir order_file
  = sort_by_key (get_exif_datetime env) (globbed env images_dir).
Proof.
  intros Hnone. unfold get_image_file_list, manifest_used in *.
  destruct order_file as [f|]; [|reflexivity]. now rewrite Hnone.
Qed.

(** X1. [get_exif_datetime] is decided by the first item of the EXIF
    dictionary, in its iteration order, whose tag is DateTimeOriginal or
    DateTime: when its value is a string that parses, the result is the
    parsed date, whether or not the file has a modification time; in every
    other case (the image or its EXIF data cannot be read, there is no such
    item, the value is not a string or does not parse) the result is that of
    the modification time, an exception included.  Later date tags and all
    other tags are never looked at. *)
Theorem exif_datetime_is_first_date_tag_or_mtime :
  forall (env : Env) (image_path : string),
    get_exif_datetime env image_path
    = match getexif env image_path with
      | ExifReturns (Some items) =>
          match first_date_tag items with
          | Some (_, ExifStr value) =>
              match strptime env value "%Y:%m:%d %H:%M:%S" with
              | Some d => Ok d
              | None => mtime env image_path
              end
          | Some (_, ExifOther) | None => mtime env image_path
          end
      | ExifReturns None | ExifRaises => mtime env image_path
      end.
Proof.
  intros env image_path. unfold get_exif_datetime, exif_try, first_date_tag.
  destruct (getexif env image_path) as [|[items|]]; try reflexivity.
  rewrite exif_loop_first_date_tag.
  destruct (find _ items) as [[tag_id [value|]]|]; try reflexivity.
  now destruct (strptime env value _).
Qed.

(** X2. A first date tag whose value does not parse sends the function to the
    modification time even when a date tag that parses follows it. *)
Theorem unparseable_first_date_tag_hides_later_ones :
  forall (env : Env) (image_path : string) (before after : list (Z * exif_value))
         (tag_id : Z) (value : string),
    getexif env image_path
      = ExifReturns (Some (before ++ (tag_id, ExifStr value) :: after)) ->
    forallb (fun item => negb (is_datetime_tag (fst item))) before = true ->
    is_datetime_tag tag_id = true ->
    strptime env value "%Y:%m:%d %H:%M:%S" = None ->
    get_exif_datetime env image_path = mtime env image_path.
Proof.
  intros env image_path before after tag_id value Hexif Hbefore Htag Hparse.
  unfold get_exif_datetime, exif_try. rewrite Hexif.
  assert (Hloop : exif_loop env (before ++ (tag_id, ExifStr value) :: after)
                  = Excepted).
  { clear Hexif. induction before as [|[id v] before IH].
    - cbn [app exif_loop]. now rewrite Htag, Hparse.
    - cbn [forallb fst] in Hbefore. apply andb_true_iff in Hbefore.
      destruct Hbefore as [Hid Hrest]. apply negb_true_iff in Hid.
      cbn [app exif_loop]. rewrite Hid. now apply IH. }
  now rewrite Hloop.
Qed.

(** X3. In manifest mode every returned path exists, every returned path is a
    manifest line stripped and joined to the directory, and no more paths
    are returned than the manifest has lines. *)
Theorem manifest_paths_exist :
  forall (env : Env) (images_dir f : string) (lines out : list string),
    Py.truthy f = true ->
    path_exists env f = true ->
    read_lines env f = Ok lines ->
    get_image_file_list env images_dir (Some f) = Ok out ->
    Forall (fun p => path_exists env p = true) out
    /\ Forall (fun p => exists line,
                 In line lines
                 /\ Py.strip line <> ""
                 /\ p = Py.path_join images_dir (Py.strip line)) out
    /\ (List.length out <= List.length lines)%nat.
Proof.
  intros env images_dir f lines out Hf Hexists Hlines Hrun.
  unfold get_image_file_list in Hrun.
  rewrite Hf, Hexists, Hlines in Hrun. cbn [andb rbind] in Hrun.
  injection Hrun as <-.
  split; [|split].
  - apply Forall_forall. intros p Hp. now apply filter_In in Hp.
  - apply Forall_forall. intros p Hp.
    apply filter_In in Hp. destruct Hp as [Hp _].
    apply in_map_iff in Hp. destruct Hp as [name [<- Hname]].
    unfold manifest_names in Hname.
    apply in_map_iff in Hname. destruct Hname as [line [<- Hline]].
    apply filter_In in Hline. destruct Hline as [Hline Hblank].
    exists line. repeat split; [exact Hline|].
    intros E. rewrite E in Hblank. discriminate.
  - eapply Nat.le_trans; [apply filter_length_le|].
    rewrite length_map. unfold manifest_names. rewrite length_map.
    apply filter_length_le.
Qed.

(** X4. Without a manifest, the sort needs a timestamp for every matched file:
    when the first file, in enumeration order, for which
    [get_exif_datetime] raises is [p], the sequencer raises that exception
    and returns no list. *)
Theorem sequencer_raises_without_timestamp :
  forall (env : Env) (images_dir : string) (order_file : option string)
         (ts : string -> datetime) (before : list string) (p : string)
         (after : list string) (e : exn),
    manifest_used env order_file = false ->
    globbed env images_dir = before ++ p :: after ->
    (forall q, In q before -> get_exif_datetime env q = Ok (ts q)) ->
    get_exif_datetime env p = Raise e ->
    get_image_file_list env images_dir order_file = Raise e.
Proof.
  intros env images_dir order_file ts before p after e Hnone Hglob Hbefore Hp.
  rewrite (sequencer_sorts_when_no_manifest env images_dir order_file Hnone).
  unfold sort_by_key. rewrite Hglob.
  now rewrite (keyed_raises env ts before p after e Hbefore Hp).
Qed.

(** X5. Without a manifest, an enumeration that is already in non-decreasing
    order of timestamps is returned as it is. *)
Theorem ordered_enumeration_is_kept :
  forall (env : Env) (images_dir : string) (order_file : option string)
         (ts : string -> datetime),
    manifest_used env order_file = false ->
    (forall p, In p (globbed env images_dir) ->
               get_exif_datetime env p = Ok (ts p)) ->
    StronglySorted (fun a b => dt_ltb (ts b) (ts a) = false)
                   (globbed env images_dir) ->
    get_image_file_list env images_dir order_file
    = Ok (globbed env images_dir).
Proof.
  intros env images_dir order_file ts Hnone Hts Hsorted.
  rewrite (sequencer_sorts_when_no_manifest env images_dir order_file Hnone).
  unfold sort_by_key. rewrite (keyed_ok env ts _ Hts). cbn [rbind].
  rewrite sort_keyed_in_order; [now rewrite map_snd_decorate|].
  clear Hts. induction Hsorted as [|x l Hl IH Hall]; cbn [map].
  - constructor.
  - constructor; [exact IH|].
    apply Forall_map. revert Hall. apply Forall_impl.
    intros y Hy. exact Hy.
Qed.

(** X6. Without a manifest and with pairwise distinct timestamps, the result
    does not depend on the order in which the filesystem enumerates the
    files: two enumerations of the same files give the same list. *)
Theorem distinct_timestamps_fix_the_order :
  forall (env env' : Env) (images_dir : string)
         (order_file order_file' : option string) (ts : string -> datetime),
    manifest_used env order_file = false ->
    manifest_used env' order_file' = false ->
    Permutation (globbed env images_dir) (globbed env' images_dir) ->
    (forall p, In p (globbed env images_dir) ->
               get_exif_datetime env p = Ok (ts p)
               /\ get_exif_datetime env' p = Ok (ts p)) ->
    (forall p q, In p (globbed env images_dir) ->
                 In q (globbed env images_dir) ->
                 ts p = ts q -> p = q) ->
    get_image_file_list env images_dir order_file
    = get_image_file_list env' images_dir order_file'.
Proof.
  intros env env' images_dir order_file order_file' ts Hnone Hnone' Hperm
         Hts Hdistinct.
  destruct (sort_by_key_spec env ts (globbed env images_dir))
    as (out & Hout & Hpout & Hsorted & _);
    [intros p Hp; now apply Hts|].
  destruct (sort_by_key_spec env' ts (globbed env' images_dir))
    as (out' & Hout' & Hpout' & Hsorted' & _).
  { intros p Hp. apply Hts.
    now apply (Permutation_in _ (Permutation_sym Hperm)). }
  rewrite (sequencer_sorts_when_no_manifest env images_dir order_file Hnone).
  rewrite (sequencer_sorts_when_no_manifest env' images_dir order_file'
             Hnone').
  rewrite Hout, Hout'. f_equal.
  apply (sorted_perm_unique _ out out' Hsorted Hsorted').
  - eapply perm_trans; [apply Permutation_sym, Hpout|].
    eapply perm_trans; [apply Hperm | apply Hpout'].
  - intros a c Ha Hc Hac Hca.
    apply Hdistinct.
    + now apply (Permutation_in _ (Permutation_sym Hpout)).
    + now apply (Permutation_in _ (Permutation_sym Hpout)).
    + now apply dt_not_ltb_antisym.
Qed.

(** ** The composer: errors before any engine call *)

Section ComposerErrors.

Context {num : Type} `{PyFloat num}.

(** X14. When [int(duration_per_image * fps)] raises, a run with at least one
    image creates the temporary directory, raises that exception at the
    first image before any engine call, and removes the directory. *)
Theorem slideshow_frame_count_error :
  forall (env : Env) (o : options num) (images : list string) (e : exn),
    get_image_file_list env (images_dir o) (order_file o) = Ok images ->
    images <> [] ->
    total_frames (duration_per_image o) (fps o) = Raise e ->
    create_slideshow env o
    = ([TempDirCreated (mkdtemp env); TempDirRemoved (mkdtemp env)], Raise e).
Proof.
  intros env o images e Hseq Hne Hframes.
  rewrite (create_slideshow_nonempty env o images Hseq Hne).
  unfold with_temporary_directory, generate_ken_burns_segments.
  destruct images as [|img rest]; [congruence|].
  cbn [segments_loop]. unfold build_ken_burns_filter. rewrite Hframes.
  now destruct (zoom_range 0 (zoom_factor o)).
Qed.

(** X15. A manifest that exists and cannot be opened or read makes the whole run
    raise that exception first: nothing is printed, no directory is
    created, no engine call is made, and the images of the directory are
    not used instead. *)
Theorem slideshow_raises_on_unreadable_manifest :
  forall (env : Env) (o : options num) (f : string) (e : exn),
    order_file o = Some f ->
    Py.truthy f = true ->
    path_exists env f = true ->
    read_lines env f = Raise e ->
    get_image_file_list env (images_dir o) (order_file o) = Raise e
    /\ create_slideshow env o = ([], Raise e).
Proof.
  intros env o f e Horder Hf Hexists Hread.
  assert (Hseq : get_image_file_list env (images_dir o) (order_file o)
                 = Raise e).
  { rewrite Horder. unfold get_image_file_list.
    now rewrite Hf, Hexists, Hread. }
  split; [exact Hseq|].
  unfold create_slideshow. now rewrite Hseq.
Qed.

End ComposerErrors.

(** ** The further properties on concrete inputs *)

Lemma two_photos_render :
  forall entry,
    In entry (enumerate_from 0 ["imgs/a.jpg"; "imgs/b.jpg"]) ->
    exit_ok Examples.two_photos
      (render_cmd "/tmp/tmpk3" 3%float 25 Examples.zoom_in_filter
                  Examples.zoom_out_filter entry) = true.
Proof. intros entry _. reflexivity. Defined.

Lemma generate_two_photos :
  exists segment_paths segment_lengths,
    outcome (generate_ken_burns_segments Examples.two_photos
               ["imgs/a.jpg"; "imgs/b.jpg"] "/tmp/tmpk3" 3%float 25
               1.25%float 0 "black" 1920 1080)
    = Ok (segment_paths, segment_lengths)
    /\ segment_paths
       = ["/tmp/tmpk3/segment_000.mp4"; "/tmp/tmpk3/segment_001.mp4"]
    /\ segment_lengths = [3%float; 3%float].
Proof.
  destruct (generate_returns_clips_and_nominal_lengths Examples.two_photos
              ["imgs/a.jpg"; "imgs/b.jpg"] "/tmp/tmpk3" 3%float 25 1.25%float
              0 "black" 1920 1080 Examples.zoom_in_filter
              Examples.zoom_out_filter zoom_in_built zoom_out_built
              two_photos_render)
    as (paths & lengths & Hrun & Hpaths & Hlengths & _).
  exists paths, lengths. split; [exact Hrun|].
  split; [rewrite Hpaths | rewrite Hlengths]; reflexivity.
Defined.

Lemma second_render_fails_first_ok :
  forall entry,
    In entry (enumerate_from 0 ["imgs/a.jpg"]) ->
    exit_ok MoreExamples.second_render_fails
      (render_cmd "/tmp/tmpk3" 3%float 25 Examples.zoom_in_filter
                  Examples.zoom_out_filter entry) = true.
Proof.
  intros entry Hin. cbn in Hin. destruct Hin as [<- | []]. reflexivity.
Defined.

Lemma generate_stops_at_second_photo :
  generate_ken_burns_segments MoreExamples.second_render_fails
    ["imgs/a.jpg"; "imgs/b.jpg"; "imgs/c.jpg"] "/tmp/tmpk3" 3%float 25
    1.25%float 0 "black" 1920 1080
  = ([ Run (Examples.render_of "imgs/a.jpg" Examples.zoom_in_filter
                               "/tmp/tmpk3/segment_000.mp4");
       Run (Examples.render_of "imgs/b.jpg" Examples.zoom_out_filter
                               "/tmp/tmpk3/segment_001.mp4") ],
     Raise (CalledProcessError
              (Examples.render_of "imgs/b.jpg" Examples.zoom_out_filter
                                  "/tmp/tmpk3/segment_001.mp4"))).
Proof.
  exact (generate_stops_at_first_failure MoreExamples.second_render_fails
           ["imgs/a.jpg"] "imgs/b.jpg" ["imgs/c.jpg"] "/tmp/tmpk3" 3%float
           25 1.25%float 0 "black" 1920 1080 Examples.zoom_in_filter
           Examples.zoom_out_filter zoom_in_built zoom_out_built
           second_render_fails_first_ok eq_refl).
Defined.

Lemma clips_of_two_photos_distinct :
  NoDup ["/tmp/tmpk3/segment_000.mp4"; "/tmp/tmpk3/segment_001.mp4"].
Proof.
  exact (proj1 (generate_returns_distinct_clips Examples.two_photos
                  ["imgs/a.jpg"; "imgs/b.jpg"] "/tmp/tmpk3" 3%float 25
                  1.25%float 0 "black" 1920 1080
                  ["/tmp/tmpk3/segment_000.mp4"; "/tmp/tmpk3/segment_001.mp4"]
                  [3%float; 3%float] eq_refl)).
Defined.

Lemma merge_fails_renders_ok :
  forall entry,
    In entry (enumerate_from 0 ["imgs/a.jpg"; "imgs/b.jpg"]) ->
    exit_ok MoreExamples.merge_fails
      (render_cmd (mkdtemp MoreExamples.merge_fails)
                  (duration_per_image Examples.defaults)
                  (fps Examples.defaults) Examples.zoom_in_filter
                  Examples.zoom_out_filter entry) = true.
Proof.
  intros entry Hin. cbn in Hin.
  destruct Hin as [<- | [<- | []]]; reflexivity.
Defined.

Lemma failed_merge_example :
  create_slideshow MoreExamples.merge_fails Examples.defaults
  = ([ TempDirCreated "/tmp/tmpk3";
       Run (Examples.render_of "imgs/a.jpg" Examples.zoom_in_filter
                               "/tmp/tmpk3/segment_000.mp4");
       Run (Examples.render_of "imgs/b.jpg" Examples.zoom_out_filter
                               "/tmp/tmpk3/segment_001.mp4");
       Run [ "ffmpeg"; "-y";
             "-i"; "/tmp/tmpk3/segment_000.mp4";
             "-i"; "/tmp/tmpk3/segment_001.mp4";
             "-filter_complex";
             "[0:v][1:v] xfade=transition=fade:duration=1.0:offset=2.0[v1]";
             "-map"; "[v1]"; "-c:v"; "libx264"; "-pix_fmt"; "yuv420p";
             "slideshow.mp4" ];
       TempDirRemoved "/tmp/tmpk3" ],
     Raise (CalledProcessError
              [ "ffmpeg"; "-y";
                "-i"; "/tmp/tmpk3/segment_000.mp4";
                "-i"; "/tmp/tmpk3/segment_001.mp4";
                "-filter_complex";
                "[0:v][1:v] xfade=transition=fade:duration=1.0:offset=2.0[v1]";
                "-map"; "[v1]"; "-c:v"; "libx264"; "-pix_fmt"; "yuv420p";
                "slideshow.mp4" ])).
Proof.
  destruct (slideshow_merges_with_filter_complex MoreExamples.merge_fails
              Examples.defaults "imgs/a.jpg" "imgs/b.jpg" []
              Examples.zoom_in_filter Examples.zoom_out_filter
              eq_refl zoom_in_built zoom_out_built merge_fails_renders_ok)
    as (filter_str & Hfilter & _ & Hrun).
  assert (Hstr : filter_str
            = "[0:v][1:v] xfade=transition=fade:duration=1.0:offset=2.0[v1]").
  { vm_compute in Hfilter. now injection Hfilter as <-. }
  subst filter_str. rewrite Hrun. reflexivity.
Defined.

Lemma second_render_fails_in_run :
  forall entry,
    In entry (enumerate_from 0 ["imgs/a.jpg"]) ->
    exit_ok MoreExamples.second_render_fails
      (render_cmd (mkdtemp MoreExamples.second_render_fails)
                  (duration_per_image Examples.defaults)
                  (fps Examples.defaults) Examples.zoom_in_filter
                  Examples.zoom_out_filter entry) = true.
Proof.
  intros entry Hin. cbn in Hin. destruct Hin as [<- | []]. reflexivity.
Defined.

Lemma failed_render_example :
  create_slideshow MoreExamples.second_render_fails Examples.defaults
  = ([ TempDirCreated "/tmp/tmpk3";
       Run (Examples.render_of "imgs/a.jpg" Examples.zoom_in_filter
                               "/tmp/tmpk3/segment_000.mp4");
       Run (Examples.render_of "imgs/b.jpg" Examples.zoom_out_filter
                               "/tmp/tmpk3/segment_001.mp4");
       TempDirRemoved "/tmp/tmpk3" ],
     Raise (CalledProcessError
              (Examples.render_of "imgs/b.jpg" Examples.zoom_out_filter
                                  "/tmp/tmpk3/segment_001.mp4"))).
Proof.
  exact (slideshow_aborts_on_failed_render MoreExamples.second_render_fails
           Examples.defaults ["imgs/a.jpg"] "imgs/b.jpg" ["imgs/c.jpg"]
           Examples.zoom_in_filter Examples.zoom_out_filter
           eq_refl zoom_in_built zoom_out_built
           second_render_fails_in_run eq_refl).
Defined.

Lemma endless_duration_example :
  total_frames infinity 25 = Raise OverflowError
  /\ create_slideshow Examples.two_photos MoreExamples.endless
     = ([TempDirCreated "/tmp/tmpk3"; TempDirRemoved "/tmp/tmpk3"],
        Raise OverflowError).
Proof.
  assert (Hframes : total_frames infinity 25 = Raise OverflowError)
    by reflexivity.
  split; [exact Hframes|].
  apply (slideshow_frame_count_error Examples.two_photos MoreExamples.endless
           ["imgs/a.jpg"; "imgs/b.jpg"] OverflowError);
    [reflexivity | discriminate | exact Hframes].
Defined.

Lemma unreadable_manifest_example :
  get_image_file_list MoreExamples.vanished_photo "imgs" (Some "order.txt")
    = Raise (FileNotFoundError "order.txt")
  /\ create_slideshow MoreExamples.vanished_photo
                      MoreExamples.unreadable_manifest
     = ([], Raise (FileNotFoundError "order.txt")).
Proof.
  exact (slideshow_raises_on_unreadable_manifest MoreExamples.vanished_photo
           MoreExamples.unreadable_manifest "order.txt"
           (FileNotFoundError "order.txt") eq_refl eq_refl eq_refl eq_refl).
Defined.

Lemma broken_first_tag_example :
  get_exif_datetime MoreExamples.broken_first_tag "imgs/a.jpg"
  = Ok (Examples.noon 3).
Proof.
  rewrite (unparseable_first_date_tag_hides_later_ones
             MoreExamples.broken_first_tag "imgs/a.jpg"
             [(272, ExifStr "X100")]
             [(36867, ExifStr "2019:07:14 09:30:00")]
             306 "0000:00:00 00:00:00" eq_refl eq_refl eq_refl eq_refl).
  reflexivity.
Defined.

Lemma manifest_paths_example :
  Forall (fun p => path_exists Examples.with_manifest p = true)
         ["imgs/z.jpg"; "imgs/a.jpg"]
  /\ (2 <= 4)%nat.
Proof.
  destruct (manifest_paths_exist Examples.with_manifest "imgs" "order.txt"
              [ "  z.jpg " ++ String "010" ""; String "010" "";
                "gone.jpg" ++ String "010" ""; "a.jpg" ]%string
              ["imgs/z.jpg"; "imgs/a.jpg"]
              eq_refl eq_refl eq_refl eq_refl) as (Hexist & _ & Hlen).
  split; [exact Hexist | exact Hlen].
Defined.

Lemma vanished_photo_example :
  get_image_file_list MoreExamples.vanished_photo "imgs" None
  = Raise (FileNotFoundError "imgs/b.jpg").
Proof.
  apply (sequencer_raises_without_timestamp MoreExamples.vanished_photo "imgs"
           None (fun _ => Examples.noon 1) ["imgs/a.jpg"] "imgs/b.jpg"
           ["imgs/c.jpg"]); [reflexivity | reflexivity | | reflexivity].
  intros q Hq. cbn in Hq. destruct Hq as [<- | []]. reflexivity.
Defined.

Lemma two_photos_timestamps :
  forall p, In p (globbed Examples.two_photos "imgs") ->
            get_exif_datetime Examples.two_photos p
            = Ok (if String.eqb p "imgs/a.jpg" then Examples.noon 1
                  else Examples.noon 2).
Proof. intros p _. reflexivity. Defined.

Lemma ordered_enumeration_example :
  get_image_file_list Examples.two_photos "imgs" None
  = Ok ["imgs/a.jpg"; "imgs/b.jpg"].
Proof.
  rewrite (ordered_enumeration_is_kept Examples.two_photos "imgs" None
             (fun p => if String.eqb p "imgs/a.jpg" then Examples.noon 1
                       else Examples.noon 2)
             eq_refl two_photos_timestamps).
  - reflexivity.
  - repeat constructor.
Defined.

Lemma listed_timestamps (files : list string) :
  forall p, get_exif_datetime (MoreExamples.listed files) p
            = Ok (MoreExamples.days p).
Proof. intros p. reflexivity. Defined.

Lemma days_distinct :
  forall p q,
    In p ["imgs/a.jpg"; "imgs/b.jpg"; "imgs/c.jpg"; "imgs/d.jpg"] ->
    In q ["imgs/a.jpg"; "imgs/b.jpg"; "imgs/c.jpg"; "imgs/d.jpg"] ->
    MoreExamples.days p = MoreExamples.days q -> p = q.
Proof.
  intros p q Hp Hq.
  cbn in Hp, Hq.
  destruct Hp as [<- | [<- | [<- | [<- | []]]]];
    destruct Hq as [<- | [<- | [<- | [<- | []]]]];
    intros E; try reflexivity; vm_compute in E; discriminate.
Defined.

Lemma enumeration_order_example :
  get_image_file_list
    (MoreExamples.listed
       ["imgs/a.jpg"; "imgs/b.jpg"; "imgs/c.jpg"; "imgs/d.jpg"]) "imgs" None
  = get_image_file_list
      (MoreExamples.listed
         ["imgs/d.jpg"; "imgs/c.jpg"; "imgs/b.jpg"; "imgs/a.jpg"]) "imgs" None.
Proof.
  apply (distinct_timestamps_fix_the_order _ _ "imgs" None None
           MoreExamples.days eq_refl eq_refl).
  - exact (Permutation_rev
             ["imgs/a.jpg"; "imgs/b.jpg"; "imgs/c.jpg"; "imgs/d.jpg"]).
  - intros p _. split; apply listed_timestamps.
  - exact days_distinct.
Defined.
